(** * databricks.sql.utils: result cursor, bounding and request error rendering

    A shallow embedding of [databricks/sql/utils.py] and the properties its
    specification states about it.

    - Python [int] is [Z]; Python [str] is [string].
    - A method that mutates [self] and may raise is a function from the
      object's state to a [result] holding the returned value and the new
      state.
    - [pyarrow.Table] is an external library type: a table is modelled as
      its number of columns and the list of its rows, and [Table.slice] with
      the behaviour pyarrow gives it, the 64-bit conversion of the length
      and the tables without columns included. *)

From Stdlib Require Import ZArith List String Ascii Bool Lia.
From Stdlib Require Import DecimalString.
Import ListNotations.

#[local] Open Scope Z_scope.

(** ** Exceptions and results *)

Inductive exn : Type :=
| IndexError (msg : string)
| OverflowError (msg : string).

Inductive result (A : Type) : Type :=
| Ok (a : A)
| Raise (e : exn).

Arguments Ok {A} a.
Arguments Raise {A} e.

Definition bind {A B : Type} (r : result A) (k : A -> result B) : result B :=
  match r with
  | Ok a => k a
  | Raise e => Raise e
  end.

Declare Scope result_scope.
Delimit Scope result_scope with result.
Notation "x <- r ;; k" := (bind r (fun x => k))
  (at level 61, r at next level, right associativity) : result_scope.
Notation "' p <- r ;; k" := (bind r (fun x => let p := x in k))
  (at level 61, p pattern, r at next level, right associativity) : result_scope.
#[local] Open Scope result_scope.

(** ** Signed 64-bit integers *)

(** pyarrow hands row counts and slice lengths to C++ as [int64_t]. *)
Definition INT64_MIN : Z := - 2 ^ 63.
Definition INT64_MAX : Z := 2 ^ 63 - 1.

(** Whether a Python [int] converts to an [int64_t]. *)
Definition fits_int64 (z : Z) : bool := (INT64_MIN <=? z) && (z <=? INT64_MAX).

(** ** pyarrow.Table *)

Section Cursor.

Context {Cell : Type}.

(** A row: its cells, one per column. *)
Definition Row : Type := list Cell.

(** A materialised batch: its number of columns and its rows, in order. The
    number of rows is an [int64_t] in pyarrow, so it is at most
    [INT64_MAX]. A table without columns still has a number of rows: its
    rows are empty. *)
Record Table : Type := mkTable {
  num_columns : nat;
  table_rows : list Row;
  table_fits : (Z.of_nat (List.length table_rows) <=? INT64_MAX) = true
}.

(** [Table.num_rows] *)
Definition num_rows (t : Table) : Z := Z.of_nat (List.length (table_rows t)).

(** The rows of [Table.slice(offset, length)], for an offset that is not
    negative and a length that fits 64 bits. The offset is clamped to the
    end of the table. With columns, each column is cut: at most [length]
    rows come back, none when [length] is zero or negative, fewer when the
    table ends first. Without columns there is nothing to cut and the
    slice is given [length] rows (none when [length] is negative), also
    past the end of the table. *)
Definition slice_rows (t : Table) (offset length : Z) : list Row :=
  let offset := Z.min (num_rows t) offset in
  let rows := firstn (Z.to_nat length) (skipn (Z.to_nat offset) (table_rows t)) in
  match num_columns t with
  | O => rows ++ repeat [] (Z.to_nat length - List.length rows)
  | S _ => rows
  end.

Definition slice_rows_fit (t : Table) (offset length : Z) :
  fits_int64 length = true ->
  (Z.of_nat (List.length (slice_rows t offset length)) <=? INT64_MAX) = true.
Proof.
  unfold fits_int64. intros Hfit.
  apply andb_prop in Hfit. destruct Hfit as [_ Hmax].
  apply Z.leb_le in Hmax. apply Z.leb_le.
  unfold slice_rows, INT64_MAX in *.
  destruct (num_columns t);
    rewrite ?length_app, ?repeat_length, length_firstn; lia.
Qed.

(** [Table.slice(offset, length)] of pyarrow: a negative offset raises
    [IndexError]; a length that does not fit 64 bits raises
    [OverflowError] when it is converted for the C++ call; otherwise the
    slice is a table with the same columns. *)
Definition slice (t : Table) (offset length : Z) : result Table :=
  if offset <? 0 then Raise (IndexError "Offset must be non-negative")
  else
    match bool_dec (fits_int64 length) true with
    | left Hfit =>
        Ok {| num_columns := num_columns t;
              table_rows := slice_rows t offset length;
              table_fits := slice_rows_fit t offset length Hfit |}
    | right _ =>
        Raise (OverflowError "Python int too large to convert to C long")
    end.

(** ** ArrowQueue *)

Record ArrowQueue : Type := mkArrowQueue {
  arrow_table : Table;
  n_valid_rows : Z;
  cur_row_index : Z
}.

(** [ArrowQueue.__init__(arrow_table, n_valid_rows, start_row_index)] *)
Definition ArrowQueue_init (arrow_table : Table) (n_valid_rows start_row_index : Z)
  : ArrowQueue :=
  {| arrow_table := arrow_table;
     n_valid_rows := n_valid_rows;
     cur_row_index := start_row_index |}.

(** [self.cur_row_index = i] *)
Definition set_cur_row_index (self : ArrowQueue) (i : Z) : ArrowQueue :=
  {| arrow_table := arrow_table self;
     n_valid_rows := n_valid_rows self;
     cur_row_index := i |}.

(** [ArrowQueue.next_n_rows(num_rows)] *)
Definition next_n_rows (self : ArrowQueue) (n : Z) : result (Table * ArrowQueue) :=
  let length := Z.min n (n_valid_rows self - cur_row_index self) in
  slice <- slice (arrow_table self) (cur_row_index self) length ;;
  let self := set_cur_row_index self (cur_row_index self + num_rows slice) in
  Ok (slice, self).

(** [ArrowQueue.remaining_rows()] *)
Definition remaining_rows (self : ArrowQueue) : result (Table * ArrowQueue) :=
  slice <- slice (arrow_table self) (cur_row_index self)
                 (n_valid_rows self - cur_row_index self) ;;
  let self := set_cur_row_index self (cur_row_index self + num_rows slice) in
  Ok (slice, self).

(** The rows of a slice of the queue's table at its cursor. *)
Definition taken (q : ArrowQueue) (length : Z) : list Row :=
  slice_rows (arrow_table q) (cur_row_index q) length.

(** A call a consumer can make on the queue. *)
Inductive Call : Type :=
| NextRows (n : Z)
| RemainingRows.

Definition run_call (self : ArrowQueue) (c : Call) : result (Table * ArrowQueue) :=
  match c with
  | NextRows n => next_n_rows self n
  | RemainingRows => remaining_rows self
  end.

(** A sequence of calls on one queue, stopping at the first exception; the
    result lists, call by call, the returned batch and the state it left. *)
Fixpoint run_calls (self : ArrowQueue) (cs : list Call)
  : result (list (Table * ArrowQueue)) :=
  match cs with
  | [] => Ok []
  | c :: cs' =>
      r <- run_call self c ;;
      rest <- run_calls (snd r) cs' ;;
      Ok (r :: rest)
  end.

(** The data-model invariant of the cursor. *)
Definition cursor_inv (q : ArrowQueue) : Prop :=
  0 <= cur_row_index q /\ cur_row_index q <= n_valid_rows q.

Definition nonneg_call (c : Call) : Prop :=
  match c with
  | NextRows n => 0 <= n
  | RemainingRows => True
  end.

Definition positive_call (c : Call) : Prop :=
  match c with
  | NextRows n => 0 < n
  | RemainingRows => True
  end.

(** A call whose argument is not below the least 64-bit integer. *)
Definition int64_call (c : Call) : Prop :=
  match c with
  | NextRows n => - 2 ^ 63 <= n
  | RemainingRows => True
  end.

(** Cursor positions along a run are non-decreasing. *)
Fixpoint nondecreasing (l : list Z) : Prop :=
  match l with
  | [] => True
  | x :: l' => match l' with
               | [] => True
               | y :: _ => x <= y
               end /\ nondecreasing l'
  end.

(** The rows a run has handed out, in the order it returned them. *)
Definition delivered (tr : list (Table * ArrowQueue)) : list Row :=
  List.concat (map (fun r => table_rows (fst r)) tr).

(** The state a run leaves the queue in. *)
Fixpoint final_queue (q : ArrowQueue) (tr : list (Table * ArrowQueue)) : ArrowQueue :=
  match tr with
  | [] => q
  | r :: tr' => final_queue (snd r) tr'
  end.

End Cursor.

Arguments Row : clear implicits.
Arguments Table : clear implicits.
Arguments ArrowQueue : clear implicits.

Coercion table_rows : Table >-> list.

(** A table of one column and five rows, and a table without columns that
    has three rows, for the concrete runs below. *)
Definition five_rows : Table nat :=
  mkTable 1 [[10]; [11]; [12]; [13]; [14]]%nat eq_refl.

Definition three_empty_rows : Table nat :=
  mkTable 0 [[]; []; []] eq_refl.

#[local] Open Scope string_scope.

(** ** _bound *)

(** Python's builtin [min(a, b)] and [max(a, b)]: the first argument is
    returned unless the second is strictly smaller (larger). *)
Definition py_min (a b : Z) : Z := if (b <? a)%Z then b else a.
Definition py_max (a b : Z) : Z := if (a <? b)%Z then b else a.

(** [_bound(min_x, max_x, x)]; [None] is an absent bound. *)
Definition _bound (min_x max_x : option Z) (x : Z) : Z :=
  match min_x with
  | None =>
      match max_x with
      | None => x
      | Some max_x => py_min max_x x
      end
  | Some min_x =>
      match max_x with
      | None => py_max min_x x
      | Some max_x => py_min max_x (py_max min_x x)
      end
  end.

(** ** Python values and string formatting *)

(** The values that reach a format field in this module. An object of any
    other class (an exception, a float, a guid) is carried as the text its
    [__str__] gives. *)
Inductive PyValue : Type :=
| PyNone
| PyStr (s : string)
| PyInt (i : Z)
| PyObject (text : string).

(** [str(i)] for an [int]: decimal digits, with a leading minus sign. *)
Definition str_of_int (i : Z) : string := NilZero.string_of_int (Z.to_int i).

(** What a [{}] field of [str.format] renders: [str(v)]. *)
Definition py_str (v : PyValue) : string :=
  match v with
  | PyNone => "None"
  | PyStr s => s
  | PyInt i => str_of_int i
  | PyObject text => text
  end.

(** [template.format(args...)] for templates whose only fields are [{}]: each
    field takes the next argument. The templates of this module are all
    used with as many arguments as they have fields. *)
Fixpoint py_format (template : string) (args : list PyValue) : string :=
  match template with
  | EmptyString => EmptyString
  | String c rest =>
      match rest with
      | String c' rest' =>
          if (Ascii.eqb c "{" && Ascii.eqb c' "}")%bool then
            match args with
            | a :: args' => py_str a ++ py_format rest' args'
            | [] => py_format rest' []
            end
          else String c (py_format rest args)
      | EmptyString => String c EmptyString
      end
  end.

(** [sep.join(parts)] *)
Fixpoint py_join (sep : string) (parts : list string) : string :=
  match parts with
  | [] => EmptyString
  | [p] => p
  | p :: ps => p ++ sep ++ py_join sep ps
  end.

(** ** OrderedDict with string keys *)

Definition OrderedDict : Type := list (string * PyValue).

(** [d[key] = value]: an existing key keeps its position, a new key goes
    last. *)
Fixpoint od_setitem (d : OrderedDict) (key : string) (value : PyValue) : OrderedDict :=
  match d with
  | [] => [(key, value)]
  | (k, v) :: d' =>
      if String.eqb k key then (k, value) :: d'
      else (k, v) :: od_setitem d' key value
  end.

(** [OrderedDict(pairs)] *)
Definition od_of_pairs (pairs : list (string * PyValue)) : OrderedDict :=
  fold_left (fun d kv => od_setitem d (fst kv) (snd kv)) pairs [].

(** [d.items()] *)
Definition od_items (d : OrderedDict) : list (string * PyValue) := d.

(** ** NoRetryReason *)

Inductive NoRetryReason : Type :=
| OUT_OF_TIME
| OUT_OF_ATTEMPTS
| NOT_RETRYABLE.

(** [reason.value] *)
Definition NoRetryReason_value (r : NoRetryReason) : string :=
  match r with
  | OUT_OF_TIME => "out of time"
  | OUT_OF_ATTEMPTS => "out of attempts"
  | NOT_RETRYABLE => "non-retryable error"
  end.

(** ** RequestErrorInfo *)

(** Modelled from the spec: the request classes are not part of this
    module. A request has or lacks a [sessionHandle] attribute and has or
    lacks an [operationHandle] attribute ([None] here is [hasattr] being
    false); a handle that is there carries an identifier with a [guid]. *)
Record HandleIdentifier : Type := { guid : PyValue }.
Record SessionHandle : Type := { sessionId : HandleIdentifier }.
Record OperationHandle : Type := { operationId : HandleIdentifier }.
Record Request : Type := {
  sessionHandle : option SessionHandle;
  operationHandle : option OperationHandle
}.

(** The named tuple [RequestErrorInfo_], its fields typed as the data model
    of the specification has them. *)
Record RequestErrorInfo : Type := {
  error : PyValue;
  error_message : option string;
  retry_delay : PyValue;
  http_code : PyValue;
  method : string;
  request : Request
}.

Definition py_of_optional_str (o : option string) : PyValue :=
  match o with
  | None => PyNone
  | Some s => PyStr s
  end.

(** Truth value of an optional string: [None] and the empty string are
    false. *)
Definition truthy (o : option string) : bool :=
  match o with
  | None => false
  | Some EmptyString => false
  | Some (String _ _) => true
  end.

(** [RequestErrorInfo.request_session_id] *)
Definition request_session_id (self : RequestErrorInfo) : PyValue :=
  match sessionHandle (request self) with
  | Some h => guid (sessionId h)
  | None => PyNone
  end.

(** [RequestErrorInfo.request_query_id] *)
Definition request_query_id (self : RequestErrorInfo) : PyValue :=
  match operationHandle (request self) with
  | Some h => guid (operationId h)
  | None => PyNone
  end.

(** [RequestErrorInfo.full_info_logging_str] *)
Definition full_info_logging_str (self : RequestErrorInfo)
    (no_retry_reason : option NoRetryReason)
    (attempt max_attempts elapsed max_duration : PyValue) : string :=
  let log_base_data_dict := od_of_pairs [
    ("Method", PyStr (method self));
    ("Session-id", request_session_id self);
    ("Query-id", request_query_id self);
    ("HTTP-code", http_code self);
    ("Error-message", py_of_optional_str (error_message self));
    ("Original-exception", error self)
  ] in
  let log_base_data_dict :=
    match no_retry_reason with
    | Some r =>
        od_setitem log_base_data_dict "No-retry-reason" (PyStr (NoRetryReason_value r))
    | None =>
        let d := od_setitem log_base_data_dict "Bounded-retry-delay" (retry_delay self) in
        let d := od_setitem d "Attempt"
                   (PyStr (py_format "{}/{}" [attempt; max_attempts])) in
        od_setitem d "Elapsed-seconds"
                   (PyStr (py_format "{}/{}" [elapsed; max_duration]))
    end in
  py_join "; "
    (map (fun kv => py_format "{}: {}" [PyStr (fst kv); snd kv])
         (od_items log_base_data_dict)).

(** [RequestErrorInfo.user_friendly_error_message] *)
Definition user_friendly_error_message (self : RequestErrorInfo)
    (no_retry_reason : option NoRetryReason) (attempt elapsed : PyValue) : string :=
  let message := "Error during request to server" in
  let message :=
    if truthy (error_message self)
    then py_format "{}: {}" [PyStr message; py_of_optional_str (error_message self)]
    else message in
  match no_retry_reason with
  | Some OUT_OF_ATTEMPTS =>
      py_format "{}: After {} retry attempts, retries are exhausted"
                [PyStr message; attempt]
  | Some OUT_OF_TIME =>
      py_format "{}: After {} seconds, maximum retry duration will be exceeded"
                [PyStr message; elapsed]
  | _ => message
  end.

(** Two error infos that differ at most in their [error] field. *)
Definition same_but_error (a b : RequestErrorInfo) : Prop :=
  error_message a = error_message b /\
  retry_delay a = retry_delay b /\
  http_code a = http_code b /\
  method a = method b /\
  request a = request b.

(** * Properties *)

(** ** pyarrow slices *)

Section SliceFacts.

Context {Cell : Type}.
Implicit Types (t : Table Cell) (q : ArrowQueue Cell).

#[local] Open Scope list_scope.
#[local] Open Scope Z_scope.

Lemma num_rows_nonneg t : 0 <= num_rows t.
Proof. unfold num_rows. lia. Qed.

Lemma num_rows_int64 t : num_rows t <= 2 ^ 63 - 1.
Proof.
  unfold num_rows. pose proof (table_fits t) as Hfit.
  apply Z.leb_le in Hfit. exact Hfit.
Qed.

Lemma fits_int64_true z : - 2 ^ 63 <= z <= 2 ^ 63 - 1 -> fits_int64 z = true.
Proof.
  intros [Hlo Hhi]. unfold fits_int64, INT64_MIN, INT64_MAX.
  apply andb_true_intro. split; apply Z.leb_le; assumption.
Qed.

Lemma fits_int64_false z : z < - 2 ^ 63 \/ 2 ^ 63 - 1 < z -> fits_int64 z = false.
Proof.
  intros Hout. unfold fits_int64, INT64_MIN, INT64_MAX.
  apply andb_false_iff.
  destruct Hout; [left | right]; apply Z.leb_gt; assumption.
Qed.

Lemma fits_int64_cases z :
  (fits_int64 z = true /\ - 2 ^ 63 <= z <= 2 ^ 63 - 1) \/
  (fits_int64 z = false /\ (z < - 2 ^ 63 \/ 2 ^ 63 - 1 < z)).
Proof.
  destruct (Z.le_gt_cases (- 2 ^ 63) z) as [Hlo | Hlo];
    [destruct (Z.le_gt_cases z (2 ^ 63 - 1)) as [Hhi | Hhi] |].
  - left. split; [apply fits_int64_true |]; lia.
  - right. split; [apply fits_int64_false |]; lia.
  - right. split; [apply fits_int64_false |]; lia.
Qed.

Lemma slice_ok t offset length :
  0 <= offset ->
  - 2 ^ 63 <= length <= 2 ^ 63 - 1 ->
  exists t',
    slice t offset length = Ok t' /\
    num_columns t' = num_columns t /\
    table_rows t' = slice_rows t offset length.
Proof.
  intros Hoff Hlen. unfold slice.
  destruct (Z.ltb_spec offset 0) as [Hneg | _]; [lia |].
  destruct (bool_dec (fits_int64 length) true) as [Hfit | Hfit].
  - eexists. split; [reflexivity |]. split; reflexivity.
  - pose proof (fits_int64_true length Hlen) as Hin. congruence.
Qed.



(** How many rows a slice has. *)
Lemma length_slice_rows t offset length :
  0 <= offset ->
  Z.of_nat (List.length (slice_rows t offset length))
  = match num_columns t with
    | O => Z.max 0 length
    | S _ => Z.max 0 (Z.min length (num_rows t - offset))
    end.
Proof.
  intros Hoff. unfold slice_rows, num_rows.
  destruct (num_columns t);
    rewrite ?length_app, ?repeat_length, length_firstn, length_skipn; lia.
Qed.

(** A slice that ends within the table is a run of its rows, with or
    without columns. *)
Lemma slice_rows_within t offset length :
  0 <= offset ->
  offset + Z.max 0 length <= num_rows t ->
  slice_rows t offset length
  = firstn (Z.to_nat length) (skipn (Z.to_nat offset) (table_rows t)).
Proof.
  intros Hoff Hfit. unfold slice_rows.
  replace (Z.min (num_rows t) offset) with offset by lia.
  destruct (num_columns t); [| reflexivity].
  replace (Z.to_nat length
           - List.length (firstn (Z.to_nat length)
                                 (skipn (Z.to_nat offset) (table_rows t))))%nat
    with 0%nat.
  - simpl. apply app_nil_r.
  - rewrite length_firstn, length_skipn. unfold num_rows in Hfit. lia.
Qed.

Lemma slice_rows_nonpositive t offset length :
  length <= 0 -> slice_rows t offset length = [].
Proof.
  intros Hlen. unfold slice_rows.
  replace (Z.to_nat length) with 0%nat by lia.
  destruct (num_columns t); reflexivity.
Qed.

Lemma nth_error_firstn_skipn (A : Type) (l : list A) (a b i : nat) :
  (i < a)%nat ->
  nth_error (firstn a (skipn b l)) i = nth_error l (b + i).
Proof.
  intros Hi. rewrite nth_error_firstn.
  destruct (Nat.ltb_spec i a) as [_ | Hge]; [| lia].
  apply nth_error_skipn.
Qed.

End SliceFacts.

(** ** ArrowQueue *)

Section CursorFacts.

Context {Cell : Type}.
Implicit Types (t : Table Cell) (q : ArrowQueue Cell).

#[local] Open Scope list_scope.
#[local] Open Scope Z_scope.

(** The length a call asks the slice for. *)
Lemma run_call_unfold q c :
  0 <= cur_row_index q ->
  let length := match c with
                | NextRows n => Z.min n (n_valid_rows q - cur_row_index q)
                | RemainingRows => n_valid_rows q - cur_row_index q
                end in
  - 2 ^ 63 <= length <= 2 ^ 63 - 1 ->
  exists rows,
    run_call q c
    = Ok (rows, set_cur_row_index q (cur_row_index q + num_rows rows)) /\
    num_columns rows = num_columns (arrow_table q) /\
    table_rows rows = taken q length.
Proof.
  intros Hcur length Hlen.
  destruct (slice_ok (arrow_table q) (cur_row_index q) length Hcur Hlen)
    as (rows & Hslice & Hcols & Hrows).
  exists rows. split; [| split; assumption].
  destruct c as [n |]; simpl; unfold next_n_rows, remaining_rows; cbv zeta;
    fold length; rewrite Hslice; reflexivity.
Qed.

Lemma next_n_rows_unfold q n :
  0 <= cur_row_index q ->
  - 2 ^ 63 <= Z.min n (n_valid_rows q - cur_row_index q) <= 2 ^ 63 - 1 ->
  exists rows,
    next_n_rows q n
    = Ok (rows, set_cur_row_index q (cur_row_index q + num_rows rows)) /\
    num_columns rows = num_columns (arrow_table q) /\
    table_rows rows = taken q (Z.min n (n_valid_rows q - cur_row_index q)).
Proof.
  intros Hcur Hlen. exact (run_call_unfold q (NextRows n) Hcur Hlen).
Qed.

Lemma remaining_rows_unfold q :
  0 <= cur_row_index q ->
  - 2 ^ 63 <= n_valid_rows q - cur_row_index q <= 2 ^ 63 - 1 ->
  exists rows,
    remaining_rows q
    = Ok (rows, set_cur_row_index q (cur_row_index q + num_rows rows)) /\
    num_columns rows = num_columns (arrow_table q) /\
    table_rows rows = taken q (n_valid_rows q - cur_row_index q).
Proof.
  intros Hcur Hlen. exact (run_call_unfold q RemainingRows Hcur Hlen).
Qed.


(** Within the data-model invariant a call returns a run of the table's
    rows that starts at the cursor. *)
Lemma run_call_within q c :
  0 <= cur_row_index q ->
  cur_row_index q <= n_valid_rows q ->
  n_valid_rows q <= num_rows (arrow_table q) ->
  int64_call c ->
  let length := match c with
                | NextRows n => Z.min n (n_valid_rows q - cur_row_index q)
                | RemainingRows => n_valid_rows q - cur_row_index q
                end in
  exists rows,
    run_call q c
    = Ok (rows, set_cur_row_index q (cur_row_index q + Z.max 0 length)) /\
    num_rows rows = Z.max 0 length /\
    table_rows rows
    = firstn (Z.to_nat length)
             (skipn (Z.to_nat (cur_row_index q)) (table_rows (arrow_table q))).
Proof.
  intros Hlo Hhi Hbatch Hc length.
  pose proof (num_rows_int64 (arrow_table q)) as Hmax.
  assert (Hlen : - 2 ^ 63 <= length <= 2 ^ 63 - 1 /\
                 length <= n_valid_rows q - cur_row_index q).
  { destruct c as [n |]; simpl in Hc; subst length; lia. }
  destruct (run_call_unfold q c Hlo) as (rows & Hcall & _ & Hrows);
    [fold length; lia |].
  fold length in Hrows.
  assert (Htaken : taken q length
                   = firstn (Z.to_nat length)
                            (skipn (Z.to_nat (cur_row_index q))
                                   (table_rows (arrow_table q)))).
  { unfold taken. apply slice_rows_within; lia. }
  assert (Hcount : num_rows rows = Z.max 0 length).
  { unfold num_rows at 1. rewrite Hrows, Htaken.
    rewrite length_firstn, length_skipn. unfold num_rows in Hbatch. lia. }
  exists rows. split; [| split].
  - rewrite Hcall, Hcount. reflexivity.
  - exact Hcount.
  - rewrite Hrows. exact Htaken.
Qed.

Lemma run_call_step q c :
  cursor_inv q ->
  n_valid_rows q <= num_rows (arrow_table q) ->
  int64_call c ->
  exists rows q',
    run_call q c = Ok (rows, q') /\
    arrow_table q' = arrow_table q /\
    n_valid_rows q' = n_valid_rows q /\
    cur_row_index q <= cur_row_index q' /\
    cursor_inv q'.
Proof.
  intros [Hlo Hhi] Hbatch Hc.
  destruct (run_call_within q c Hlo Hhi Hbatch Hc) as (rows & Hcall & _ & _).
  do 2 eexists. split; [exact Hcall |].
  unfold cursor_inv. simpl.
  destruct c as [n |]; simpl in *; repeat split; lia.
Qed.

Lemma nonneg_call_int64 (c : Call) : nonneg_call c -> int64_call c.
Proof.
  destruct c as [n |]; simpl; [lia | trivial].
Qed.

Lemma positive_call_int64 (c : Call) : positive_call c -> int64_call c.
Proof.
  destruct c as [n |]; simpl; [lia | trivial].
Qed.

(** C1: from a state with [0 <= cursor <= validRowCount <= batch size] and
    for [n >= 0], [next_n_rows n] returns the rows at positions
    [cursor .. cursor + take - 1] of the batch, [take] being
    [min n (validRowCount - cursor)], and moves the cursor forward by
    [take]. On any 10-row batch with [validRowCount = 10] and [cursor = 0]:
    [next_n_rows 4] gives 4 rows and cursor 4, [next_n_rows 100] then gives
    6 rows and cursor 10, and [remaining_rows] then gives no row. *)
Theorem next_n_rows_returns_slice :
  (forall q n,
      0 <= cur_row_index q ->
      cur_row_index q <= n_valid_rows q ->
      n_valid_rows q <= num_rows (arrow_table q) ->
      0 <= n ->
      let take := Z.min n (n_valid_rows q - cur_row_index q) in
      exists rows,
        next_n_rows q n
        = Ok (rows, set_cur_row_index q (cur_row_index q + take)) /\
        num_rows rows = take /\
        forall i : nat, (i < Z.to_nat take)%nat ->
          nth_error rows i
          = nth_error (arrow_table q) (Z.to_nat (cur_row_index q) + i))
  /\
  (forall t, num_rows t = 10 ->
      exists r1 q1 r2 q2 r3 q3,
        next_n_rows (ArrowQueue_init t 10 0) 4 = Ok (r1, q1) /\
        num_rows r1 = 4 /\ cur_row_index q1 = 4 /\
        next_n_rows q1 100 = Ok (r2, q2) /\
        num_rows r2 = 6 /\ cur_row_index q2 = 10 /\
        remaining_rows q2 = Ok (r3, q3) /\
        num_rows r3 = 0).
Proof.
  assert (General : forall q n,
      0 <= cur_row_index q ->
      cur_row_index q <= n_valid_rows q ->
      n_valid_rows q <= num_rows (arrow_table q) ->
      0 <= n ->
      let take := Z.min n (n_valid_rows q - cur_row_index q) in
      exists rows,
        next_n_rows q n
        = Ok (rows, set_cur_row_index q (cur_row_index q + take)) /\
        num_rows rows = take /\
        forall i : nat, (i < Z.to_nat take)%nat ->
          nth_error rows i
          = nth_error (arrow_table q) (Z.to_nat (cur_row_index q) + i)).
  { intros q n Hlo Hhi Hbatch Hn take.
    destruct (run_call_within q (NextRows n) Hlo Hhi Hbatch)
      as (rows & Hcall & Hcount & Hrows); [simpl; lia |].
    fold take in Hcall, Hcount, Hrows. simpl in Hcall.
    replace (Z.max 0 take) with take in * by (subst take; lia).
    exists rows. split; [exact Hcall |]. split; [exact Hcount |].
    intros i Hi. rewrite Hrows. apply nth_error_firstn_skipn. exact Hi. }
  split; [exact General |].
  intros t Ht.
  destruct (General (ArrowQueue_init t 10 0) 4) as (r1 & E1 & N1 & _);
    simpl; try lia.
  simpl in E1, N1.
  set (q1 := set_cur_row_index (ArrowQueue_init t 10 0) 4) in *.
  destruct (General q1 100) as (r2 & E2 & N2 & _); simpl; try lia.
  simpl in E2, N2.
  set (q2 := set_cur_row_index q1 10) in *.
  destruct (run_call_within q2 RemainingRows) as (r3 & E3 & N3 & _);
    simpl; try lia.
  simpl in E3, N3.
  exists r1, q1, r2, q2, r3, (set_cur_row_index q2 (10 + 0)).
  repeat apply conj; try assumption; reflexivity.
Qed.

Lemma run_calls_invariant q cs :
  cursor_inv q ->
  n_valid_rows q <= num_rows (arrow_table q) ->
  Forall int64_call cs ->
  exists tr,
    run_calls q cs = Ok tr /\
    Forall (fun r => cursor_inv (snd r)) tr /\
    nondecreasing (cur_row_index q :: map (fun r => cur_row_index (snd r)) tr).
Proof.
  revert q. induction cs as [| c cs IH]; intros q Hinv Hbatch Hcs.
  - exists []. simpl. auto.
  - inversion Hcs as [| c' cs' Hc Hcs']; subst.
    destruct (run_call_step q c Hinv Hbatch Hc)
      as (rows & q' & Hcall & Htab & Hval & Hmono & Hinv').
    destruct (IH q' Hinv') as (tr & Hrun & Hall & Hnd);
      [rewrite Htab, Hval; assumption | assumption |].
    exists ((rows, q') :: tr). simpl. rewrite Hcall. simpl. rewrite Hrun. simpl.
    split; [reflexivity |]. split.
    + constructor; assumption.
    + split; assumption.
Qed.

(** C2: from a queue built with [0 <= cursor <= validRowCount <= batch
    size], every finite sequence of [next_n_rows n] ([n >= 0]) and
    [remaining_rows] calls runs to its end, every state it goes through
    satisfies [0 <= cursor <= validRowCount], and no call moves the cursor
    backwards. *)
Theorem cursor_invariant_preserved q cs :
  0 <= cur_row_index q ->
  cur_row_index q <= n_valid_rows q ->
  n_valid_rows q <= num_rows (arrow_table q) ->
  Forall nonneg_call cs ->
  exists tr,
    run_calls q cs = Ok tr /\
    Forall (fun r => 0 <= cur_row_index (snd r) <= n_valid_rows (snd r)) tr /\
    nondecreasing (cur_row_index q :: map (fun r => cur_row_index (snd r)) tr).
Proof.
  intros Hlo Hhi Hbatch Hcs.
  destruct (run_calls_invariant q cs) as (tr & Hrun & Hall & Hnd).
  { split; assumption. }
  { assumption. }
  { eapply Forall_impl; [| exact Hcs]. apply nonneg_call_int64. }
  exists tr. split; [assumption |]. split; [| assumption].
  eapply Forall_impl; [| exact Hall].
  intros r [H1 H2]. split; assumption.
Qed.

(** C6, as amended: from a state with
    [0 <= cursor <= validRowCount <= batch size], [next_n_rows n] returns
    for every integer [n >= -2^63], with
    [max 0 (min n (validRowCount - cursor))] rows; it returns no row when
    [n <= 0], and when [n] exceeds the rows available it returns at most
    the rows available, so fewer than [n]. *)
Theorem next_n_rows_never_raises q n :
  0 <= cur_row_index q ->
  cur_row_index q <= n_valid_rows q ->
  n_valid_rows q <= num_rows (arrow_table q) ->
  - 2 ^ 63 <= n ->
  exists rows q',
    next_n_rows q n = Ok (rows, q') /\
    Z.of_nat (List.length rows)
    = Z.max 0 (Z.min n (n_valid_rows q - cur_row_index q)) /\
    (n <= 0 -> table_rows rows = []) /\
    (n_valid_rows q - cur_row_index q < n ->
     Z.of_nat (List.length rows) <= n_valid_rows q - cur_row_index q /\
     Z.of_nat (List.length rows) < n).
Proof.
  intros Hlo Hhi Hbatch Hn.
  destruct (run_call_within q (NextRows n) Hlo Hhi Hbatch Hn)
    as (rows & Hcall & Hcount & Hrows).
  simpl in Hcall. unfold num_rows in Hcount.
  do 2 eexists. split; [exact Hcall |]. split; [exact Hcount |]. split.
  - intros Hle. rewrite Hrows.
    replace (Z.to_nat (Z.min n (n_valid_rows q - cur_row_index q)))
      with 0%nat by lia.
    reflexivity.
  - intros Hgt. rewrite Hcount. lia.
Qed.

Lemma set_cur_row_index_same q i :
  i = cur_row_index q -> set_cur_row_index q i = q.
Proof.
  intros ->. destruct q. reflexivity.
Qed.

(** On an exhausted queue a call returns no row and changes nothing. *)
Lemma exhausted_call_empty q c :
  0 <= cur_row_index q ->
  cur_row_index q = n_valid_rows q ->
  positive_call c ->
  exists rows, run_call q c = Ok (rows, q) /\ table_rows rows = [].
Proof.
  intros Hlo Heq Hc.
  set (length := match c with
                 | NextRows n => Z.min n (n_valid_rows q - cur_row_index q)
                 | RemainingRows => n_valid_rows q - cur_row_index q
                 end).
  assert (Hlen : length = 0).
  { destruct c as [n |]; simpl in Hc; subst length; lia. }
  destruct (run_call_unfold q c Hlo) as (rows & Hcall & _ & Hrows);
    [fold length; lia |].
  fold length in Hrows.
  assert (Hnil : table_rows rows = []).
  { rewrite Hrows. unfold taken. apply slice_rows_nonpositive. lia. }
  exists rows. split; [| exact Hnil].
  rewrite Hcall. unfold num_rows. rewrite Hnil. simpl.
  rewrite set_cur_row_index_same by lia. reflexivity.
Qed.

Lemma exhausted_run_empty q cs :
  0 <= cur_row_index q ->
  cur_row_index q = n_valid_rows q ->
  Forall positive_call cs ->
  exists tr,
    run_calls q cs = Ok tr /\
    List.length tr = List.length cs /\
    Forall (fun r => table_rows (fst r) = [] /\ snd r = q) tr.
Proof.
  intros Hlo Heq Hcs. induction Hcs as [| c cs Hc Hcs IH].
  - exists []. simpl. auto.
  - destruct (exhausted_call_empty q c Hlo Heq Hc) as (rows & Hcall & Hnil).
    destruct IH as (tr & Hrun & Hlen & Hall).
    exists ((rows, q) :: tr). simpl. rewrite Hcall. simpl. rewrite Hrun. simpl.
    split; [reflexivity |]. split; [now rewrite Hlen |].
    constructor; [simpl; auto | assumption].
Qed.

(** C7: a queue that is exhausted ([cursor = validRowCount], the cursor not
    negative) answers every later call, [next_n_rows k] with [k > 0] or
    [remaining_rows], with an empty batch and stays as it is; and from a
    state with [0 <= cursor <= validRowCount <= batch size],
    [remaining_rows] returns and leaves the queue exhausted, so that a
    [next_n_rows k] with [k > 0] after it returns an empty batch. *)
Theorem exhausted_cursor_yields_empty :
  (forall q,
      0 <= cur_row_index q ->
      cur_row_index q = n_valid_rows q ->
      (forall k, 0 < k ->
         exists rows, next_n_rows q k = Ok (rows, q) /\ table_rows rows = []) /\
      (exists rows, remaining_rows q = Ok (rows, q) /\ table_rows rows = []) /\
      (forall cs, Forall positive_call cs ->
         exists tr,
           run_calls q cs = Ok tr /\
           List.length tr = List.length cs /\
           Forall (fun r => table_rows (fst r) = [] /\ snd r = q) tr))
  /\
  (forall q k,
      0 <= cur_row_index q ->
      cur_row_index q <= n_valid_rows q ->
      n_valid_rows q <= num_rows (arrow_table q) ->
      0 < k ->
      exists rows q1 rows',
        remaining_rows q = Ok (rows, q1) /\
        cur_row_index q1 = n_valid_rows q1 /\
        next_n_rows q1 k = Ok (rows', q1) /\
        table_rows rows' = []).
Proof.
  split.
  - intros q Hlo Heq. split; [| split].
    + intros k Hk. exact (exhausted_call_empty q (NextRows k) Hlo Heq Hk).
    + exact (exhausted_call_empty q RemainingRows Hlo Heq I).
    + intros cs Hcs. apply exhausted_run_empty; assumption.
  - intros q k Hlo Hhi Hbatch Hk.
    destruct (run_call_within q RemainingRows Hlo Hhi Hbatch I)
      as (rows & Hcall & _ & _).
    simpl in Hcall.
    set (q1 := set_cur_row_index q
                 (cur_row_index q + Z.max 0 (n_valid_rows q - cur_row_index q)))
      in *.
    assert (Hq1 : cur_row_index q1 = n_valid_rows q1) by (subst q1; simpl; lia).
    destruct (exhausted_call_empty q1 (NextRows k)) as (rows' & Hnext & Hnil);
      [subst q1; simpl; lia | exact Hq1 | exact Hk |].
    exists rows, q1, rows'. auto.
Qed.

(** C8: from a state with [0 <= cursor <= validRowCount <= batch size],
    [remaining_rows] and [next_n_rows (validRowCount - cursor)] return the
    same batch, the rows [cursor .. validRowCount - 1] of the table, and
    leave the same state, whose cursor is [validRowCount]. *)
Theorem remaining_rows_is_next_n_rows q :
  0 <= cur_row_index q ->
  cur_row_index q <= n_valid_rows q ->
  n_valid_rows q <= num_rows (arrow_table q) ->
  exists rows q',
    remaining_rows q = Ok (rows, q') /\
    next_n_rows q (n_valid_rows q - cur_row_index q) = Ok (rows, q') /\
    cur_row_index q' = n_valid_rows q /\
    n_valid_rows q' = n_valid_rows q /\
    arrow_table q' = arrow_table q /\
    Z.of_nat (List.length rows) = n_valid_rows q - cur_row_index q /\
    forall i : nat,
      (i < Z.to_nat (n_valid_rows q - cur_row_index q))%nat ->
      nth_error rows i
      = nth_error (arrow_table q) (Z.to_nat (cur_row_index q) + i).
Proof.
  intros Hlo Hhi Hbatch.
  destruct (run_call_within q RemainingRows Hlo Hhi Hbatch I)
    as (rows & Hcall & Hcount & Hrows).
  simpl in Hcall.
  assert (Hsame : next_n_rows q (n_valid_rows q - cur_row_index q)
                  = remaining_rows q).
  { unfold next_n_rows, remaining_rows. cbv zeta.
    now rewrite Z.min_id. }
  do 2 eexists. split; [exact Hcall |].
  split; [rewrite Hsame; exact Hcall |].
  simpl. split; [lia |]. split; [reflexivity |]. split; [reflexivity |].
  split.
  - unfold num_rows in Hcount. rewrite Hcount. lia.
  - intros i Hi. rewrite Hrows. apply nth_error_firstn_skipn. exact Hi.
Qed.

End CursorFacts.

(** C6, the claim as stated fails: the state satisfies
    [0 <= cursor <= validRowCount <= batch size], and [n = -2^63 - 1] is an
    integer, but it does not fit the 64-bit length of pyarrow's slice, which
    raises [OverflowError]. *)
Lemma next_n_rows_overflow_raises :
  let q := ArrowQueue_init five_rows 4 1 in
  (0 <= cur_row_index q)%Z /\
  (cur_row_index q <= n_valid_rows q)%Z /\
  (n_valid_rows q <= num_rows (arrow_table q))%Z /\
  next_n_rows q (- 2 ^ 63 - 1)
  = Raise (OverflowError "Python int too large to convert to C long").
Proof.
  cbv zeta. repeat apply conj.
  - vm_compute. discriminate.
  - vm_compute. discriminate.
  - vm_compute. discriminate.
  - vm_compute. reflexivity.
Qed.

(** Concrete runs of the theorems above. *)

Lemma next_n_rows_returns_slice_witness :
  let q := ArrowQueue_init five_rows 4 1 in
  (0 <= cur_row_index q)%Z /\
  (cur_row_index q <= n_valid_rows q)%Z /\
  (n_valid_rows q <= num_rows (arrow_table q))%Z /\
  (0 <= 2)%Z /\
  exists rows,
    next_n_rows q 2 = Ok (rows, set_cur_row_index q 3) /\
    num_rows rows = 2%Z /\
    forall i : nat, (i < 2)%nat ->
      nth_error rows i = nth_error (arrow_table q) (1 + i).
Proof.
  cbv zeta.
  assert (H0 : (0 <= cur_row_index (ArrowQueue_init five_rows 4 1))%Z)
    by (simpl; lia).
  assert (H1 : (cur_row_index (ArrowQueue_init five_rows 4 1)
                <= n_valid_rows (ArrowQueue_init five_rows 4 1))%Z)
    by (simpl; lia).
  assert (H2 : (n_valid_rows (ArrowQueue_init five_rows 4 1)
                <= num_rows (arrow_table (ArrowQueue_init five_rows 4 1)))%Z)
    by (vm_compute; discriminate).
  assert (H3 : (0 <= 2)%Z) by lia.
  repeat (split; [assumption |]).
  exact (proj1 next_n_rows_returns_slice
           (ArrowQueue_init five_rows 4 1) 2%Z H0 H1 H2 H3).
Defined.

Lemma cursor_invariant_preserved_witness :
  let q := ArrowQueue_init five_rows 4 1 in
  let cs := [NextRows 2; NextRows 0; RemainingRows; NextRows 7] in
  (0 <= cur_row_index q)%Z /\
  (cur_row_index q <= n_valid_rows q)%Z /\
  (n_valid_rows q <= num_rows (arrow_table q))%Z /\
  Forall nonneg_call cs /\
  exists tr,
    run_calls q cs = Ok tr /\
    Forall (fun r => (0 <= cur_row_index (snd r) <= n_valid_rows (snd r))%Z) tr /\
    nondecreasing (cur_row_index q :: map (fun r => cur_row_index (snd r)) tr).
Proof.
  cbv zeta.
  assert (H0 : (0 <= cur_row_index (ArrowQueue_init five_rows 4 1))%Z)
    by (simpl; lia).
  assert (H1 : (cur_row_index (ArrowQueue_init five_rows 4 1)
                <= n_valid_rows (ArrowQueue_init five_rows 4 1))%Z)
    by (simpl; lia).
  assert (H2 : (n_valid_rows (ArrowQueue_init five_rows 4 1)
                <= num_rows (arrow_table (ArrowQueue_init five_rows 4 1)))%Z)
    by (vm_compute; discriminate).
  assert (H3 : Forall nonneg_call
                 [NextRows 2; NextRows 0; RemainingRows; NextRows 7])
    by (repeat constructor; simpl; lia).
  repeat (split; [assumption |]).
  exact (cursor_invariant_preserved _ _ H0 H1 H2 H3).
Defined.

Lemma next_n_rows_never_raises_witness :
  let q := ArrowQueue_init five_rows 4 1 in
  (0 <= cur_row_index q)%Z /\
  (cur_row_index q <= n_valid_rows q)%Z /\
  (n_valid_rows q <= num_rows (arrow_table q))%Z /\
  (- 2 ^ 63 <= - 2 ^ 63)%Z /\
  exists rows q',
    next_n_rows q (- 2 ^ 63) = Ok (rows, q') /\
    Z.of_nat (List.length rows)
    = Z.max 0 (Z.min (- 2 ^ 63) (n_valid_rows q - cur_row_index q)) /\
    ((- 2 ^ 63 <= 0)%Z -> table_rows rows = []) /\
    ((n_valid_rows q - cur_row_index q < - 2 ^ 63)%Z ->
     (Z.of_nat (List.length rows) <= n_valid_rows q - cur_row_index q)%Z /\
     (Z.of_nat (List.length rows) < - 2 ^ 63)%Z).
Proof.
  cbv zeta.
  assert (H0 : (0 <= cur_row_index (ArrowQueue_init five_rows 4 1))%Z)
    by (simpl; lia).
  assert (H1 : (cur_row_index (ArrowQueue_init five_rows 4 1)
                <= n_valid_rows (ArrowQueue_init five_rows 4 1))%Z)
    by (simpl; lia).
  assert (H2 : (n_valid_rows (ArrowQueue_init five_rows 4 1)
                <= num_rows (arrow_table (ArrowQueue_init five_rows 4 1)))%Z)
    by (vm_compute; discriminate).
  assert (H3 : (- 2 ^ 63 <= - 2 ^ 63)%Z) by apply Z.le_refl.
  repeat (split; [assumption |]).
  exact (next_n_rows_never_raises _ (- 2 ^ 63)%Z H0 H1 H2 H3).
Defined.

Lemma exhausted_cursor_yields_empty_witness :
  let q := ArrowQueue_init five_rows 4 4 in
  let cs := [NextRows 3; RemainingRows; NextRows 1] in
  let q0 := ArrowQueue_init five_rows 4 2 in
  ((0 <= cur_row_index q)%Z /\
   cur_row_index q = n_valid_rows q /\
   Forall positive_call cs /\
   exists tr,
     run_calls q cs = Ok tr /\
     List.length tr = List.length cs /\
     Forall (fun r => table_rows (fst r) = [] /\ snd r = q) tr)
  /\
  ((0 <= cur_row_index q0)%Z /\
   (cur_row_index q0 <= n_valid_rows q0)%Z /\
   (n_valid_rows q0 <= num_rows (arrow_table q0))%Z /\
   (0 < 5)%Z /\
   exists rows q1 rows',
     remaining_rows q0 = Ok (rows, q1) /\
     cur_row_index q1 = n_valid_rows q1 /\
     next_n_rows q1 5 = Ok (rows', q1) /\
     table_rows rows' = []).
Proof.
  cbv zeta.
  assert (H0 : (0 <= cur_row_index (ArrowQueue_init five_rows 4 4))%Z)
    by (simpl; lia).
  assert (H1 : cur_row_index (ArrowQueue_init five_rows 4 4)
               = n_valid_rows (ArrowQueue_init five_rows 4 4))
    by reflexivity.
  assert (H2 : Forall positive_call [NextRows 3; RemainingRows; NextRows 1])
    by (repeat constructor; simpl; lia).
  assert (H3 : (0 <= cur_row_index (ArrowQueue_init five_rows 4 2))%Z)
    by (simpl; lia).
  assert (H4 : (cur_row_index (ArrowQueue_init five_rows 4 2)
                <= n_valid_rows (ArrowQueue_init five_rows 4 2))%Z)
    by (simpl; lia).
  assert (H5 : (n_valid_rows (ArrowQueue_init five_rows 4 2)
                <= num_rows (arrow_table (ArrowQueue_init five_rows 4 2)))%Z)
    by (vm_compute; discriminate).
  assert (H6 : (0 < 5)%Z) by lia.
  split.
  - repeat (split; [assumption |]).
    exact (proj2 (proj2 (proj1 exhausted_cursor_yields_empty _ H0 H1)) _ H2).
  - repeat (split; [assumption |]).
    exact (proj2 exhausted_cursor_yields_empty _ 5%Z H3 H4 H5 H6).
Defined.

Lemma remaining_rows_is_next_n_rows_witness :
  let q := ArrowQueue_init five_rows 4 1 in
  (0 <= cur_row_index q)%Z /\
  (cur_row_index q <= n_valid_rows q)%Z /\
  (n_valid_rows q <= num_rows (arrow_table q))%Z /\
  exists rows q',
    remaining_rows q = Ok (rows, q') /\
    next_n_rows q (n_valid_rows q - cur_row_index q) = Ok (rows, q') /\
    cur_row_index q' = n_valid_rows q /\
    n_valid_rows q' = n_valid_rows q /\
    arrow_table q' = arrow_table q /\
    Z.of_nat (List.length rows) = (n_valid_rows q - cur_row_index q)%Z /\
    forall i : nat,
      (i < Z.to_nat (n_valid_rows q - cur_row_index q))%nat ->
      nth_error rows i
      = nth_error (arrow_table q) (Z.to_nat (cur_row_index q) + i).
Proof.
  cbv zeta.
  assert (H0 : (0 <= cur_row_index (ArrowQueue_init five_rows 4 1))%Z)
    by (simpl; lia).
  assert (H1 : (cur_row_index (ArrowQueue_init five_rows 4 1)
                <= n_valid_rows (ArrowQueue_init five_rows 4 1))%Z)
    by (simpl; lia).
  assert (H2 : (n_valid_rows (ArrowQueue_init five_rows 4 1)
                <= num_rows (arrow_table (ArrowQueue_init five_rows 4 1)))%Z)
    by (vm_compute; discriminate).
  repeat (split; [assumption |]).
  exact (remaining_rows_is_next_n_rows _ H0 H1 H2).
Defined.

(** ** _bound *)

Lemma py_min_is_min a b : py_min a b = Z.min a b.
Proof.
  unfold py_min. destruct (Z.ltb_spec b a); lia.
Qed.

Lemma py_max_is_max a b : py_max a b = Z.max a b.
Proof.
  unfold py_max. destruct (Z.ltb_spec a b); lia.
Qed.

(** C5: [_bound] is the four-case function: [x] without bounds,
    [min max_x x] with an upper bound only, [max min_x x] with a lower
    bound only, [min max_x (max min_x x)] with both; and
    [_bound None 10 15 = 10], [_bound 0 None (-3) = 0],
    [_bound 0 10 5 = 5]. *)
Theorem bound_four_cases :
  (forall (min_x max_x : option Z) (x : Z),
      _bound min_x max_x x
      = match min_x, max_x with
        | None, None => x
        | None, Some hi => Z.min hi x
        | Some lo, None => Z.max lo x
        | Some lo, Some hi => Z.min hi (Z.max lo x)
        end)
  /\ _bound None (Some 10%Z) 15 = 10%Z
  /\ _bound (Some 0%Z) None (-3) = 0%Z
  /\ _bound (Some 0%Z) (Some 10%Z) 5 = 5%Z.
Proof.
  split; [| repeat split].
  intros [lo |] [hi |] x; simpl;
    rewrite ?py_min_is_min, ?py_max_is_max; reflexivity.
Qed.

(** ** RequestErrorInfo *)

Lemma append_empty_r (s : string) : s ++ EmptyString = s.
Proof.
  induction s as [| c s IH]; simpl; [reflexivity | now rewrite IH].
Qed.

Lemma py_format_colon (a b : PyValue) :
  py_format "{}: {}" [a; b] = py_str a ++ ": " ++ py_str b.
Proof.
  simpl. now rewrite append_empty_r.
Qed.

Lemma py_format_slash (a b : PyValue) :
  py_format "{}/{}" [a; b] = py_str a ++ "/" ++ py_str b.
Proof.
  simpl. now rewrite append_empty_r.
Qed.

Lemma py_format_out_of_attempts (a b : PyValue) :
  py_format "{}: After {} retry attempts, retries are exhausted" [a; b]
  = py_str a ++ ": After " ++ py_str b ++ " retry attempts, retries are exhausted".
Proof. reflexivity. Qed.

Lemma py_format_out_of_time (a b : PyValue) :
  py_format "{}: After {} seconds, maximum retry duration will be exceeded" [a; b]
  = py_str a ++ ": After " ++ py_str b
    ++ " seconds, maximum retry duration will be exceeded".
Proof. reflexivity. Qed.

Lemma append_assoc (a b c : string) : (a ++ b) ++ c = a ++ b ++ c.
Proof.
  induction a as [| x a IH]; simpl; [reflexivity | now rewrite IH].
Qed.

(** C3: the diagnostic line is the list of [Key: Value] pairs joined by
    [; ], the keys being Method, Session-id, Query-id, HTTP-code,
    Error-message, Original-exception, then No-retry-reason with the
    reason's label when a reason is given, and otherwise
    Bounded-retry-delay, Attempt as [attempt/max_attempts] and
    Elapsed-seconds as [elapsed/max_duration]. The line is spelled out for
    every input, and in full for a request without handles while retries go
    on and for a request with both handles once a reason stops them. *)
Theorem full_info_logging_str_layout :
  (forall (self : RequestErrorInfo) (no_retry_reason : option NoRetryReason)
          (attempt max_attempts elapsed max_duration : PyValue),
      full_info_logging_str self no_retry_reason
                            attempt max_attempts elapsed max_duration
      = "Method: " ++ method self
        ++ "; Session-id: " ++ py_str (request_session_id self)
        ++ "; Query-id: " ++ py_str (request_query_id self)
        ++ "; HTTP-code: " ++ py_str (http_code self)
        ++ "; Error-message: "
        ++ match error_message self with
           | Some m => m
           | None => "None"
           end
        ++ "; Original-exception: " ++ py_str (error self)
        ++ match no_retry_reason with
           | Some OUT_OF_TIME => "; No-retry-reason: out of time"
           | Some OUT_OF_ATTEMPTS => "; No-retry-reason: out of attempts"
           | Some NOT_RETRYABLE => "; No-retry-reason: non-retryable error"
           | None =>
               "; Bounded-retry-delay: " ++ py_str (retry_delay self)
               ++ "; Attempt: " ++ py_str attempt ++ "/" ++ py_str max_attempts
               ++ "; Elapsed-seconds: " ++ py_str elapsed
               ++ "/" ++ py_str max_duration
           end)
  /\
  full_info_logging_str
    {| error := PyObject "timed out";
       error_message := Some "timeout";
       retry_delay := PyObject "1.5";
       http_code := PyNone;
       method := "ExecuteStatement";
       request := {| sessionHandle := None; operationHandle := None |} |}
    None (PyInt 1) (PyInt 5) (PyInt 2) (PyInt 30)
  = "Method: ExecuteStatement; Session-id: None; Query-id: None; HTTP-code: None; Error-message: timeout; Original-exception: timed out; Bounded-retry-delay: 1.5; Attempt: 1/5; Elapsed-seconds: 2/30"
  /\
  full_info_logging_str
    {| error := PyObject "bad request";
       error_message := None;
       retry_delay := PyNone;
       http_code := PyInt 400;
       method := "FetchResults";
       request :=
         {| sessionHandle := Some {| sessionId := {| guid := PyObject "s-1" |} |};
            operationHandle := Some {| operationId := {| guid := PyObject "q-7" |} |} |} |}
    (Some NOT_RETRYABLE) (PyInt 1) (PyInt 5) (PyInt 2) (PyInt 30)
  = "Method: FetchResults; Session-id: s-1; Query-id: q-7; HTTP-code: 400; Error-message: None; Original-exception: bad request; No-retry-reason: non-retryable error".
Proof.
  split; [| split; reflexivity].
  intros self no_retry_reason attempt max_attempts elapsed max_duration.
  unfold full_info_logging_str, od_items, od_of_pairs.
  destruct no_retry_reason as [[] |];
    cbn [fold_left od_setitem String.eqb Ascii.eqb Bool.eqb fst snd map
         NoRetryReason_value];
    rewrite ?py_format_colon, ?py_format_slash;
    cbn [py_join py_str];
    destruct (error_message self) as [m |];
    cbn [py_of_optional_str py_str];
    rewrite ?append_assoc; reflexivity.
Qed.

(** The diagnostic line of a request without handles, while retries go on. *)
Example full_info_logging_str_retrying :
  full_info_logging_str
    {| error := PyObject "timed out";
       error_message := Some "timeout";
       retry_delay := PyObject "1.5";
       http_code := PyNone;
       method := "ExecuteStatement";
       request := {| sessionHandle := None; operationHandle := None |} |}
    None (PyInt 1) (PyInt 5) (PyInt 2) (PyInt 30)
  = "Method: ExecuteStatement; Session-id: None; Query-id: None; HTTP-code: None; Error-message: timeout; Original-exception: timed out; Bounded-retry-delay: 1.5; Attempt: 1/5; Elapsed-seconds: 2/30".
Proof. reflexivity. Qed.

(** The diagnostic line of a session-scoped request once a reason stops the
    retries. *)
Example full_info_logging_str_stopped :
  full_info_logging_str
    {| error := PyObject "bad request";
       error_message := None;
       retry_delay := PyNone;
       http_code := PyInt 400;
       method := "FetchResults";
       request :=
         {| sessionHandle := Some {| sessionId := {| guid := PyObject "s-1" |} |};
            operationHandle := Some {| operationId := {| guid := PyObject "q-7" |} |} |} |}
    (Some NOT_RETRYABLE) (PyInt 1) (PyInt 5) (PyInt 2) (PyInt 30)
  = "Method: FetchResults; Session-id: s-1; Query-id: q-7; HTTP-code: 400; Error-message: None; Original-exception: bad request; No-retry-reason: non-retryable error".
Proof. reflexivity. Qed.

(** The message, by cases on the error message and on the reason. *)
Lemma user_friendly_error_message_unfold
    (self : RequestErrorInfo) (no_retry_reason : option NoRetryReason)
    (attempt elapsed : PyValue) :
  user_friendly_error_message self no_retry_reason attempt elapsed
  = ("Error during request to server"
     ++ match error_message self with
        | Some (String c m) => ": " ++ String c m
        | Some EmptyString | None => EmptyString
        end)
    ++ match no_retry_reason with
       | Some OUT_OF_ATTEMPTS =>
           ": After " ++ py_str attempt ++ " retry attempts, retries are exhausted"
       | Some OUT_OF_TIME =>
           ": After " ++ py_str elapsed
           ++ " seconds, maximum retry duration will be exceeded"
       | Some NOT_RETRYABLE | None => EmptyString
       end.
Proof.
  unfold user_friendly_error_message.
  destruct (error_message self) as [[| c m] |];
    destruct no_retry_reason as [[] |];
    cbn [truthy py_of_optional_str];
    rewrite ?py_format_out_of_attempts, ?py_format_out_of_time, ?py_format_colon;
    cbn [py_str];
    rewrite ?append_empty_r, ?append_assoc;
    reflexivity.
Qed.

(** C4, as amended: the user message starts with
    [Error during request to server]; when the error message is present and
    not empty, [: ] and the error message follow; then
    [: After <attempt> retry attempts, retries are exhausted] for
    OUT_OF_ATTEMPTS,
    [: After <elapsed> seconds, maximum retry duration will be exceeded]
    for OUT_OF_TIME, and nothing for NOT_RETRYABLE or no reason. With the
    error message [timeout], OUT_OF_ATTEMPTS and attempt 3 the message is
    [Error during request to server: timeout: After 3 retry attempts,
    retries are exhausted]. *)
Theorem user_friendly_error_message_layout :
  (forall (self : RequestErrorInfo) (no_retry_reason : option NoRetryReason)
          (attempt elapsed : PyValue),
      user_friendly_error_message self no_retry_reason attempt elapsed
      = ("Error during request to server"
         ++ match error_message self with
            | Some (String c m) => ": " ++ String c m
            | Some EmptyString | None => EmptyString
            end)
        ++ match no_retry_reason with
           | Some OUT_OF_ATTEMPTS =>
               ": After " ++ py_str attempt
               ++ " retry attempts, retries are exhausted"
           | Some OUT_OF_TIME =>
               ": After " ++ py_str elapsed
               ++ " seconds, maximum retry duration will be exceeded"
           | Some NOT_RETRYABLE | None => EmptyString
           end)
  /\
  (forall (e d h : PyValue) (m : string) (rq : Request) (elapsed : PyValue),
      user_friendly_error_message
        {| error := e; error_message := Some "timeout"; retry_delay := d;
           http_code := h; method := m; request := rq |}
        (Some OUT_OF_ATTEMPTS) (PyInt 3) elapsed
      = "Error during request to server: timeout: After 3 retry attempts, retries are exhausted").
Proof.
  split.
  - exact user_friendly_error_message_unfold.
  - intros. reflexivity.
Qed.

(** C4, the claim as stated fails: an error message that is present but
    empty is not appended, so the message lacks the [: ] the claim puts
    after the first sentence. *)
Lemma user_friendly_error_message_empty_message :
  let self :=
    {| error := PyObject "timed out"; error_message := Some EmptyString;
       retry_delay := PyNone; http_code := PyNone;
       method := "ExecuteStatement";
       request := {| sessionHandle := None; operationHandle := None |} |} in
  error_message self = Some EmptyString /\
  user_friendly_error_message self None (PyInt 1) (PyInt 2)
  = "Error during request to server" /\
  user_friendly_error_message self None (PyInt 1) (PyInt 2)
  <> "Error during request to server" ++ ": " ++ EmptyString.
Proof.
  cbv zeta. repeat apply conj; try reflexivity.
  vm_compute. discriminate.
Qed.

(** C9: two error infos that differ only in their [error] field give the
    same user message, whatever the reason, the attempt and the elapsed
    time. *)
Theorem user_friendly_error_message_ignores_error
    (a b : RequestErrorInfo) (no_retry_reason : option NoRetryReason)
    (attempt elapsed : PyValue) :
  same_but_error a b ->
  user_friendly_error_message a no_retry_reason attempt elapsed
  = user_friendly_error_message b no_retry_reason attempt elapsed.
Proof.
  intros (Hmsg & _). unfold user_friendly_error_message.
  now rewrite Hmsg.
Qed.

(** C10: an error message that is present but empty adds nothing: the user
    message is that of the same info without an error message, that is
    [Error during request to server] followed only by what the reason
    adds. *)
Theorem user_friendly_error_message_empty_as_absent
    (self other : RequestErrorInfo) (no_retry_reason : option NoRetryReason)
    (attempt elapsed : PyValue) :
  error_message self = Some EmptyString ->
  error_message other = None ->
  user_friendly_error_message self no_retry_reason attempt elapsed
  = user_friendly_error_message other no_retry_reason attempt elapsed
  /\
  user_friendly_error_message self no_retry_reason attempt elapsed
  = "Error during request to server"
    ++ match no_retry_reason with
       | Some OUT_OF_ATTEMPTS =>
           ": After " ++ py_str attempt
           ++ " retry attempts, retries are exhausted"
       | Some OUT_OF_TIME =>
           ": After " ++ py_str elapsed
           ++ " seconds, maximum retry duration will be exceeded"
       | Some NOT_RETRYABLE | None => EmptyString
       end.
Proof.
  intros Hself Hother. unfold user_friendly_error_message.
  rewrite Hself, Hother. cbn [truthy].
  split; [reflexivity |].
  destruct no_retry_reason as [[] |]; reflexivity.
Qed.

Lemma user_friendly_error_message_ignores_error_witness :
  let a :=
    {| error := PyObject "ConnectionResetError(104)"; error_message := Some "timeout";
       retry_delay := PyObject "1.5"; http_code := PyInt 503;
       method := "ExecuteStatement";
       request := {| sessionHandle := None; operationHandle := None |} |} in
  let b :=
    {| error := PyObject "secret token abc"; error_message := Some "timeout";
       retry_delay := PyObject "1.5"; http_code := PyInt 503;
       method := "ExecuteStatement";
       request := {| sessionHandle := None; operationHandle := None |} |} in
  same_but_error a b /\
  user_friendly_error_message a (Some OUT_OF_TIME) (PyInt 3) (PyInt 40)
  = user_friendly_error_message b (Some OUT_OF_TIME) (PyInt 3) (PyInt 40).
Proof.
  cbv zeta.
  assert (H : same_but_error
    {| error := PyObject "ConnectionResetError(104)"; error_message := Some "timeout";
       retry_delay := PyObject "1.5"; http_code := PyInt 503;
       method := "ExecuteStatement";
       request := {| sessionHandle := None; operationHandle := None |} |}
    {| error := PyObject "secret token abc"; error_message := Some "timeout";
       retry_delay := PyObject "1.5"; http_code := PyInt 503;
       method := "ExecuteStatement";
       request := {| sessionHandle := None; operationHandle := None |} |})
    by (repeat split).
  split; [exact H |].
  exact (user_friendly_error_message_ignores_error _ _ _ _ _ H).
Defined.

Lemma user_friendly_error_message_empty_as_absent_witness :
  let self :=
    {| error := PyObject "timed out"; error_message := Some EmptyString;
       retry_delay := PyNone; http_code := PyNone;
       method := "ExecuteStatement";
       request := {| sessionHandle := None; operationHandle := None |} |} in
  let other :=
    {| error := PyObject "timed out"; error_message := None;
       retry_delay := PyNone; http_code := PyNone;
       method := "ExecuteStatement";
       request := {| sessionHandle := None; operationHandle := None |} |} in
  error_message self = Some EmptyString /\
  error_message other = None /\
  user_friendly_error_message self (Some OUT_OF_ATTEMPTS) (PyInt 3) (PyInt 40)
  = user_friendly_error_message other (Some OUT_OF_ATTEMPTS) (PyInt 3) (PyInt 40) /\
  user_friendly_error_message self (Some OUT_OF_ATTEMPTS) (PyInt 3) (PyInt 40)
  = "Error during request to server"
    ++ ": After " ++ py_str (PyInt 3) ++ " retry attempts, retries are exhausted".
Proof.
  cbv zeta.
  split; [reflexivity |]. split; [reflexivity |].
  exact (user_friendly_error_message_empty_as_absent
           {| error := PyObject "timed out"; error_message := Some EmptyString;
              retry_delay := PyNone; http_code := PyNone;
              method := "ExecuteStatement";
              request := {| sessionHandle := None; operationHandle := None |} |}
           {| error := PyObject "timed out"; error_message := None;
              retry_delay := PyNone; http_code := PyNone;
              method := "ExecuteStatement";
              request := {| sessionHandle := None; operationHandle := None |} |}
           (Some OUT_OF_ATTEMPTS) (PyInt 3) (PyInt 40) eq_refl eq_refl).
Defined.

(** * Further properties *)

(** ** _bound *)

Ltac bound_cases :=
  unfold _bound; rewrite ?py_min_is_min, ?py_max_is_max; try lia.

(** X1: the result never exceeds an upper bound that is given; it is never
    below a lower bound given alone; with both bounds and
    [min_x <= max_x] it lies between them. *)
Theorem bound_within_bounds :
  (forall (min_x : option Z) (hi x : Z), (_bound min_x (Some hi) x <= hi)%Z) /\
  (forall lo x : Z, (lo <= _bound (Some lo) None x)%Z) /\
  (forall lo hi x : Z,
      (lo <= hi)%Z ->
      (lo <= _bound (Some lo) (Some hi) x <= hi)%Z).
Proof.
  split; [| split].
  - intros [lo |] hi x; bound_cases.
  - intros lo x. bound_cases.
  - intros lo hi x Hle. bound_cases.
Qed.

(** X2: bounding twice with the same bounds changes nothing more, whatever
    the bounds are. *)
Theorem bound_idempotent (min_x max_x : option Z) (x : Z) :
  _bound min_x max_x (_bound min_x max_x x) = _bound min_x max_x x.
Proof.
  destruct min_x as [lo |], max_x as [hi |]; bound_cases.
Qed.

(** X3: bounding keeps the order of the values it is given. *)
Theorem bound_monotone (min_x max_x : option Z) (x y : Z) :
  (x <= y)%Z ->
  (_bound min_x max_x x <= _bound min_x max_x y)%Z.
Proof.
  intros Hxy. destruct min_x as [lo |], max_x as [hi |]; bound_cases.
Qed.

(** X4: with [min_x <= max_x], the value comes back unchanged exactly when
    it already lies between the bounds. *)
Theorem bound_fixes_exactly_the_range (lo hi x : Z) :
  (lo <= hi)%Z ->
  (_bound (Some lo) (Some hi) x = x <-> (lo <= x <= hi)%Z).
Proof.
  intros Hle. split; bound_cases.
Qed.

(** X5: with crossed bounds, [max_x < min_x], the upper bound wins: the
    result is [max_x] for every value. *)
Theorem bound_crossed_gives_upper (lo hi x : Z) :
  (hi < lo)%Z ->
  _bound (Some lo) (Some hi) x = hi.
Proof.
  intros Hlt. bound_cases.
Qed.

Lemma bound_within_bounds_witness :
  (0 <= 10)%Z /\ (0 <= _bound (Some 0%Z) (Some 10%Z) 25 <= 10)%Z.
Proof.
  assert (H : (0 <= 10)%Z) by lia.
  split; [exact H |].
  exact (proj2 (proj2 bound_within_bounds) 0%Z 10%Z 25%Z H).
Defined.

Lemma bound_monotone_witness :
  (-4 <= 25)%Z /\
  (_bound (Some 0%Z) (Some 10%Z) (-4) <= _bound (Some 0%Z) (Some 10%Z) 25)%Z.
Proof.
  assert (H : (-4 <= 25)%Z) by lia.
  split; [exact H |].
  exact (bound_monotone (Some 0%Z) (Some 10%Z) (-4)%Z 25%Z H).
Defined.

Lemma bound_fixes_exactly_the_range_witness :
  (0 <= 10)%Z /\
  (_bound (Some 0%Z) (Some 10%Z) 5 = 5%Z <-> (0 <= 5 <= 10)%Z).
Proof.
  assert (H : (0 <= 10)%Z) by lia.
  split; [exact H |].
  exact (bound_fixes_exactly_the_range 0%Z 10%Z 5%Z H).
Defined.

Lemma bound_crossed_gives_upper_witness :
  (3 < 8)%Z /\ _bound (Some 8%Z) (Some 3%Z) 5 = 3%Z.
Proof.
  assert (H : (3 < 8)%Z) by lia.
  split; [exact H |].
  exact (bound_crossed_gives_upper 8%Z 3%Z 5%Z H).
Defined.

(** ** ArrowQueue: runs of calls *)

Section CursorRuns.

Context {Cell : Type}.
Implicit Types (t : Table Cell) (q : ArrowQueue Cell) (l : list (Row Cell)).

#[local] Open Scope list_scope.
#[local] Open Scope Z_scope.

Lemma firstn_add_skipn l (a k : nat) :
  firstn (a + k) l = firstn a l ++ firstn k (skipn a l).
Proof.
  revert l. induction a as [| a IH]; intros l; simpl.
  - reflexivity.
  - destruct l as [| x l]; simpl.
    + now rewrite firstn_nil.
    + now rewrite IH.
Qed.

(** Two runs of rows that follow each other make one run. *)
Lemma firstn_skipn_chain l (c m k : Z) :
  0 <= c -> 0 <= m -> 0 <= k ->
  firstn (Z.to_nat m) (skipn (Z.to_nat c) l)
  ++ firstn (Z.to_nat k) (skipn (Z.to_nat (c + m)) l)
  = firstn (Z.to_nat (m + k)) (skipn (Z.to_nat c) l).
Proof.
  intros Hc Hm Hk.
  replace (Z.to_nat (m + k)) with (Z.to_nat m + Z.to_nat k)%nat by lia.
  rewrite firstn_add_skipn, skipn_skipn.
  replace (Z.to_nat m + Z.to_nat c)%nat with (Z.to_nat (c + m)) by lia.
  reflexivity.
Qed.

Lemma final_queue_app q (tr1 tr2 : list (Table Cell * ArrowQueue Cell)) :
  final_queue q (tr1 ++ tr2) = final_queue (final_queue q tr1) tr2.
Proof.
  revert q. induction tr1 as [| r tr1 IH]; intros q; simpl; [reflexivity | apply IH].
Qed.

Lemma run_calls_app q cs1 cs2 tr1 :
  run_calls q cs1 = Ok tr1 ->
  run_calls q (cs1 ++ cs2)
  = (tr2 <- run_calls (final_queue q tr1) cs2 ;; Ok (tr1 ++ tr2)).
Proof.
  revert q tr1. induction cs1 as [| c cs1 IH]; intros q tr1 Hrun; simpl in *.
  - injection Hrun as <-. simpl.
    destruct (run_calls q cs2); reflexivity.
  - destruct (run_call q c) as [r | e]; simpl in *; [| discriminate].
    destruct (run_calls (snd r) cs1) as [tr | e] eqn:Hrest; simpl in *;
      [| discriminate].
    injection Hrun as <-.
    rewrite (IH (snd r) tr Hrest). simpl.
    destruct (run_calls (final_queue (snd r) tr) cs2); reflexivity.
Qed.

(** What a run within the data-model invariant returns and where it leaves
    the queue. *)
Lemma run_calls_summary q cs :
  0 <= cur_row_index q ->
  cur_row_index q <= n_valid_rows q ->
  n_valid_rows q <= num_rows (arrow_table q) ->
  Forall int64_call cs ->
  exists tr,
    run_calls q cs = Ok tr /\
    List.length tr = List.length cs /\
    arrow_table (final_queue q tr) = arrow_table q /\
    n_valid_rows (final_queue q tr) = n_valid_rows q /\
    cur_row_index q <= cur_row_index (final_queue q tr) /\
    cur_row_index (final_queue q tr) <= n_valid_rows q /\
    cur_row_index (final_queue q tr)
    = fold_left (fun pos c =>
                   match c with
                   | NextRows n => pos + Z.max 0 (Z.min n (n_valid_rows q - pos))
                   | RemainingRows => n_valid_rows q
                   end) cs (cur_row_index q) /\
    delivered tr
    = firstn (Z.to_nat (cur_row_index (final_queue q tr) - cur_row_index q))
             (skipn (Z.to_nat (cur_row_index q)) (table_rows (arrow_table q))).
Proof.
  revert q. induction cs as [| c cs IH]; intros q Hlo Hhi Hbatch Hcs.
  - exists []. simpl. repeat split; try lia.
    now rewrite Z.sub_diag.
  - inversion Hcs as [| c' cs' Hc Hcs']; subst.
    destruct (run_call_within q c Hlo Hhi Hbatch Hc) as (rows & Hcall & _ & Hrows).
    set (length := match c with
                   | NextRows n => Z.min n (n_valid_rows q - cur_row_index q)
                   | RemainingRows => n_valid_rows q - cur_row_index q
                   end) in *.
    assert (Hlen : length <= n_valid_rows q - cur_row_index q)
      by (destruct c; subst length; lia).
    set (q' := set_cur_row_index q (cur_row_index q + Z.max 0 length)) in *.
    destruct (IH q')
      as (tr & Hrun & Hcount & Htab & Hval & Hmono & Hmax & Hfold & Hdel);
      [subst q'; simpl; lia .. | assumption |].
    exists ((rows, q') :: tr).
    simpl run_calls. rewrite Hcall. simpl bind. rewrite Hrun. simpl bind.
    cbn [final_queue snd].
    assert (Hq'c : cur_row_index q' = cur_row_index q + Z.max 0 length)
      by reflexivity.
    change (arrow_table q') with (arrow_table q) in *.
    change (n_valid_rows q') with (n_valid_rows q) in *.
    split; [reflexivity |].
    split; [simpl; now rewrite Hcount |].
    split; [assumption |]. split; [assumption |].
    split; [lia |]. split; [lia |].
    split.
    { rewrite Hfold. cbn [fold_left]. f_equal. rewrite Hq'c.
      destruct c as [n |]; subst length; lia. }
    unfold delivered in *. cbn [map fst List.concat]. rewrite Hdel, Hrows, Hq'c.
    replace (Z.to_nat length) with (Z.to_nat (Z.max 0 length)) by lia.
    rewrite firstn_skipn_chain by lia.
    f_equal. lia.
Qed.

(** X6: reading in two steps is reading in one: from a state with
    [0 <= cursor <= validRowCount <= batch size], [next_n_rows a] followed
    by [next_n_rows b] ([a, b >= 0]) returns, put end to end, the rows that
    [next_n_rows (a + b)] returns, and leaves the same state. *)
Theorem next_n_rows_in_two_steps q a b :
  0 <= cur_row_index q ->
  cur_row_index q <= n_valid_rows q ->
  n_valid_rows q <= num_rows (arrow_table q) ->
  0 <= a -> 0 <= b ->
  exists r1 q1 r2 q2 r,
    next_n_rows q a = Ok (r1, q1) /\
    next_n_rows q1 b = Ok (r2, q2) /\
    next_n_rows q (a + b) = Ok (r, q2) /\
    table_rows r = table_rows r1 ++ table_rows r2 /\
    table_rows r
    = firstn (Z.to_nat (Z.min (a + b) (n_valid_rows q - cur_row_index q)))
             (skipn (Z.to_nat (cur_row_index q)) (table_rows (arrow_table q))) /\
    cur_row_index q2
    = cur_row_index q + Z.min (a + b) (n_valid_rows q - cur_row_index q).
Proof.
  intros Hlo Hhi Hbatch Ha Hb.
  destruct (run_call_within q (NextRows a) Hlo Hhi Hbatch)
    as (r1 & Hcall1 & _ & Hrows1); [simpl; lia |].
  simpl in Hcall1.
  set (len1 := Z.min a (n_valid_rows q - cur_row_index q)) in *.
  set (q1 := set_cur_row_index q (cur_row_index q + Z.max 0 len1)) in *.
  destruct (run_call_within q1 (NextRows b))
    as (r2 & Hcall2 & _ & Hrows2); [subst q1 len1; simpl; lia .. |].
  simpl in Hcall2.
  set (len2 := Z.min b (n_valid_rows q1 - cur_row_index q1)) in *.
  destruct (run_call_within q (NextRows (a + b)) Hlo Hhi Hbatch)
    as (r & Hcall & _ & Hrows); [simpl; lia |].
  simpl in Hcall.
  set (len := Z.min (a + b) (n_valid_rows q - cur_row_index q)) in *.
  assert (Hsum : len = Z.max 0 len1 + Z.max 0 len2)
    by (subst len len1 len2 q1; simpl; lia).
  exists r1, q1, r2, (set_cur_row_index q1 (cur_row_index q1 + Z.max 0 len2)), r.
  split; [exact Hcall1 |]. split; [exact Hcall2 |]. split; [| split; [| split]].
  - rewrite Hcall. do 2 f_equal. subst q1. unfold set_cur_row_index. simpl.
    f_equal. lia.
  - rewrite Hrows, Hrows1, Hrows2.
    change (arrow_table q1) with (arrow_table q).
    change (cur_row_index q1) with (cur_row_index q + Z.max 0 len1).
    replace (Z.to_nat len1) with (Z.to_nat (Z.max 0 len1)) by lia.
    replace (Z.to_nat len2) with (Z.to_nat (Z.max 0 len2)) by lia.
    rewrite firstn_skipn_chain by lia.
    now rewrite Hsum.
  - exact Hrows.
  - subst q1. simpl. lia.
Qed.

(** X7: from a state with [0 <= cursor <= validRowCount <= batch size],
    the batches a run of calls returns (any [n >= -2^63], negative ones
    included), put end to end, are the rows of the table from the cursor's
    first position up to its last one: no row is skipped, repeated or
    reordered, and every call returns. The last position is the first
    one moved forward, call by call, by [max 0 (min n (validRowCount -
    position))] for [next_n_rows n] and to [validRowCount] for
    [remaining_rows]. *)
Theorem run_delivers_rows_between_cursors q cs :
  0 <= cur_row_index q ->
  cur_row_index q <= n_valid_rows q ->
  n_valid_rows q <= num_rows (arrow_table q) ->
  Forall int64_call cs ->
  exists tr,
    run_calls q cs = Ok tr /\
    List.length tr = List.length cs /\
    cur_row_index (final_queue q tr)
    = fold_left (fun pos c =>
                   match c with
                   | NextRows n => pos + Z.max 0 (Z.min n (n_valid_rows q - pos))
                   | RemainingRows => n_valid_rows q
                   end) cs (cur_row_index q) /\
    cur_row_index q <= cur_row_index (final_queue q tr) /\
    delivered tr
    = firstn (Z.to_nat (cur_row_index (final_queue q tr) - cur_row_index q))
             (skipn (Z.to_nat (cur_row_index q)) (table_rows (arrow_table q))).
Proof.
  intros Hlo Hhi Hbatch Hcs.
  destruct (run_calls_summary q cs Hlo Hhi Hbatch Hcs)
    as (tr & Hrun & Hcount & _ & _ & Hmono & _ & Hfold & Hdel).
  exists tr. auto.
Qed.

(** X8: draining loses nothing: from a state with
    [0 <= cursor <= validRowCount <= batch size], any calls (with
    [n >= -2^63]) followed by [remaining_rows] return in total exactly the
    rows [cursor .. validRowCount - 1] of the table, and leave the cursor
    at [validRowCount]. *)
Theorem run_then_remaining_rows_delivers_all q cs :
  0 <= cur_row_index q ->
  cur_row_index q <= n_valid_rows q ->
  n_valid_rows q <= num_rows (arrow_table q) ->
  Forall int64_call cs ->
  exists tr,
    run_calls q (cs ++ [RemainingRows]) = Ok tr /\
    List.length tr = S (List.length cs) /\
    cur_row_index (final_queue q tr) = n_valid_rows q /\
    delivered tr
    = firstn (Z.to_nat (n_valid_rows q - cur_row_index q))
             (skipn (Z.to_nat (cur_row_index q)) (table_rows (arrow_table q))).
Proof.
  intros Hlo Hhi Hbatch Hcs.
  destruct (run_calls_summary q cs Hlo Hhi Hbatch Hcs)
    as (tr1 & Hrun1 & _ & Htab & Hval & Hmono & Hmax & _ & _).
  set (q1 := final_queue q tr1) in *.
  destruct (run_call_within q1 RemainingRows) as (rows & Hcall & _ & _);
    [lia | lia | rewrite Htab, Hval; assumption | exact I |].
  simpl in Hcall.
  set (q2 := set_cur_row_index q1
               (cur_row_index q1 + Z.max 0 (n_valid_rows q1 - cur_row_index q1)))
    in *.
  assert (Hrun : run_calls q (cs ++ [RemainingRows]) = Ok (tr1 ++ [(rows, q2)])).
  { rewrite (run_calls_app q cs [RemainingRows] tr1 Hrun1). fold q1.
    simpl. rewrite Hcall. reflexivity. }
  destruct (run_calls_summary q (cs ++ [RemainingRows]) Hlo Hhi Hbatch)
    as (tr & Hrun' & Hcount & _ & _ & _ & _ & _ & Hdel).
  { apply Forall_app. split; [assumption | repeat constructor]. }
  rewrite Hrun in Hrun'. injection Hrun' as <-.
  exists (tr1 ++ [(rows, q2)]).
  assert (Hfinal : cur_row_index (final_queue q (tr1 ++ [(rows, q2)]))
                   = n_valid_rows q).
  { rewrite final_queue_app. fold q1. subst q2. simpl. lia. }
  split; [assumption |].
  split; [rewrite Hcount, length_app; simpl; lia |].
  split; [assumption |].
  rewrite Hdel, Hfinal. reflexivity.
Qed.


(** X11: from any state whose cursor is not negative, when the length
    [min n (n_valid_rows - cursor)] fits 64 bits, [next_n_rows n] returns a
    batch with the columns of the table and moves the cursor forward by the
    number of its rows, leaving the table and [n_valid_rows] as they were.
    With columns that number is [max 0 (min length (rows left in the
    table))]; without columns it is [max 0 length], also past the end of
    the table. *)
Theorem next_n_rows_row_count q n :
  0 <= cur_row_index q ->
  - 2 ^ 63 <= Z.min n (n_valid_rows q - cur_row_index q) <= 2 ^ 63 - 1 ->
  exists rows q',
    next_n_rows q n = Ok (rows, q') /\
    Z.of_nat (List.length rows)
    = match num_columns (arrow_table q) with
      | O => Z.max 0 (Z.min n (n_valid_rows q - cur_row_index q))
      | S _ => Z.max 0 (Z.min (Z.min n (n_valid_rows q - cur_row_index q))
                              (Z.of_nat (List.length (arrow_table q))
                               - cur_row_index q))
      end /\
    cur_row_index q' = cur_row_index q + Z.of_nat (List.length rows) /\
    arrow_table q' = arrow_table q /\
    n_valid_rows q' = n_valid_rows q /\
    num_columns rows = num_columns (arrow_table q).
Proof.
  intros Hcur Hlen.
  destruct (next_n_rows_unfold q n Hcur Hlen) as (rows & Hcall & Hcols & Hrows).
  do 2 eexists. split; [exact Hcall |].
  split; [| repeat split; assumption].
  rewrite Hrows. unfold taken. now rewrite length_slice_rows.
Qed.

End CursorRuns.

(** Concrete runs of the theorems above. *)

Lemma next_n_rows_in_two_steps_witness :
  let q := ArrowQueue_init five_rows 4 1 in
  (0 <= cur_row_index q)%Z /\
  (cur_row_index q <= n_valid_rows q)%Z /\
  (n_valid_rows q <= num_rows (arrow_table q))%Z /\
  (0 <= 2)%Z /\ (0 <= 5)%Z /\
  exists r1 q1 r2 q2 r,
    next_n_rows q 2 = Ok (r1, q1) /\
    next_n_rows q1 5 = Ok (r2, q2) /\
    next_n_rows q (2 + 5) = Ok (r, q2) /\
    table_rows r = (table_rows r1 ++ table_rows r2)%list /\
    table_rows r
    = firstn (Z.to_nat (Z.min (2 + 5) (n_valid_rows q - cur_row_index q)))
             (skipn (Z.to_nat (cur_row_index q)) (table_rows (arrow_table q))) /\
    cur_row_index q2
    = (cur_row_index q + Z.min (2 + 5) (n_valid_rows q - cur_row_index q))%Z.
Proof.
  cbv zeta.
  assert (H0 : (0 <= cur_row_index (ArrowQueue_init five_rows 4 1))%Z)
    by (simpl; lia).
  assert (H1 : (cur_row_index (ArrowQueue_init five_rows 4 1)
                <= n_valid_rows (ArrowQueue_init five_rows 4 1))%Z)
    by (simpl; lia).
  assert (H2 : (n_valid_rows (ArrowQueue_init five_rows 4 1)
                <= num_rows (arrow_table (ArrowQueue_init five_rows 4 1)))%Z)
    by (vm_compute; discriminate).
  assert (H3 : (0 <= 2)%Z) by lia.
  assert (H4 : (0 <= 5)%Z) by lia.
  repeat (split; [assumption |]).
  exact (next_n_rows_in_two_steps _ 2%Z 5%Z H0 H1 H2 H3 H4).
Defined.

Lemma run_delivers_rows_between_cursors_witness :
  let q := ArrowQueue_init five_rows 4 1 in
  let cs := [NextRows 2; NextRows (-3); NextRows 1; RemainingRows] in
  (0 <= cur_row_index q)%Z /\
  (cur_row_index q <= n_valid_rows q)%Z /\
  (n_valid_rows q <= num_rows (arrow_table q))%Z /\
  Forall int64_call cs /\
  exists tr,
    run_calls q cs = Ok tr /\
    List.length tr = List.length cs /\
    cur_row_index (final_queue q tr)
    = fold_left (fun pos c =>
                   match c with
                   | NextRows n =>
                       (pos + Z.max 0 (Z.min n (n_valid_rows q - pos)))%Z
                   | RemainingRows => n_valid_rows q
                   end) cs (cur_row_index q) /\
    (cur_row_index q <= cur_row_index (final_queue q tr))%Z /\
    delivered tr
    = firstn (Z.to_nat (cur_row_index (final_queue q tr) - cur_row_index q))
             (skipn (Z.to_nat (cur_row_index q)) (table_rows (arrow_table q))).
Proof.
  cbv zeta.
  assert (H0 : (0 <= cur_row_index (ArrowQueue_init five_rows 4 1))%Z)
    by (simpl; lia).
  assert (H1 : (cur_row_index (ArrowQueue_init five_rows 4 1)
                <= n_valid_rows (ArrowQueue_init five_rows 4 1))%Z)
    by (simpl; lia).
  assert (H2 : (n_valid_rows (ArrowQueue_init five_rows 4 1)
                <= num_rows (arrow_table (ArrowQueue_init five_rows 4 1)))%Z)
    by (vm_compute; discriminate).
  assert (H3 : Forall int64_call
                 [NextRows 2; NextRows (-3); NextRows 1; RemainingRows])
    by (repeat constructor; vm_compute; discriminate).
  repeat (split; [assumption |]).
  exact (run_delivers_rows_between_cursors _ _ H0 H1 H2 H3).
Defined.

Lemma run_then_remaining_rows_delivers_all_witness :
  let q := ArrowQueue_init five_rows 4 1 in
  let cs := [NextRows 1; NextRows 0; NextRows 1] in
  (0 <= cur_row_index q)%Z /\
  (cur_row_index q <= n_valid_rows q)%Z /\
  (n_valid_rows q <= num_rows (arrow_table q))%Z /\
  Forall int64_call cs /\
  exists tr,
    run_calls q (cs ++ [RemainingRows])%list = Ok tr /\
    List.length tr = S (List.length cs) /\
    cur_row_index (final_queue q tr) = n_valid_rows q /\
    delivered tr
    = firstn (Z.to_nat (n_valid_rows q - cur_row_index q))
             (skipn (Z.to_nat (cur_row_index q)) (table_rows (arrow_table q))).
Proof.
  cbv zeta.
  assert (H0 : (0 <= cur_row_index (ArrowQueue_init five_rows 4 1))%Z)
    by (simpl; lia).
  assert (H1 : (cur_row_index (ArrowQueue_init five_rows 4 1)
                <= n_valid_rows (ArrowQueue_init five_rows 4 1))%Z)
    by (simpl; lia).
  assert (H2 : (n_valid_rows (ArrowQueue_init five_rows 4 1)
                <= num_rows (arrow_table (ArrowQueue_init five_rows 4 1)))%Z)
    by (vm_compute; discriminate).
  assert (H3 : Forall int64_call [NextRows 1; NextRows 0; NextRows 1])
    by (repeat constructor; vm_compute; discriminate).
  repeat (split; [assumption |]).
  exact (run_then_remaining_rows_delivers_all _ _ H0 H1 H2 H3).
Defined.


Lemma next_n_rows_row_count_witness :
  let q := ArrowQueue_init three_empty_rows 20 1 in
  (0 <= cur_row_index q)%Z /\
  (- 2 ^ 63 <= Z.min 8 (n_valid_rows q - cur_row_index q) <= 2 ^ 63 - 1)%Z /\
  exists rows q',
    next_n_rows q 8 = Ok (rows, q') /\
    Z.of_nat (List.length rows) = 8%Z /\
    cur_row_index q' = (cur_row_index q + Z.of_nat (List.length rows))%Z /\
    arrow_table q' = arrow_table q /\
    n_valid_rows q' = n_valid_rows q /\
    num_columns rows = num_columns (arrow_table q).
Proof.
  cbv zeta.
  assert (H0 : (0 <= cur_row_index (ArrowQueue_init three_empty_rows 20 1))%Z)
    by (simpl; lia).
  assert (H1 : (- 2 ^ 63
                <= Z.min 8 (n_valid_rows (ArrowQueue_init three_empty_rows 20 1)
                            - cur_row_index (ArrowQueue_init three_empty_rows 20 1))
                <= 2 ^ 63 - 1)%Z)
    by (split; vm_compute; discriminate).
  split; [exact H0 |]. split; [exact H1 |].
  exact (next_n_rows_row_count _ 8%Z H0 H1).
Defined.

(** ** RequestErrorInfo: what the two messages depend on *)

Lemma append_cancel_l (p a b : string) : p ++ a = p ++ b -> a = b.
Proof.
  induction p as [| c p IH]; simpl; intros H; [assumption |].
  injection H as H. auto.
Qed.

Lemma py_join_cancel (sep p : string) (x y : string) (xs ys : list string) :
  py_join sep (p :: x :: xs) = py_join sep (p :: y :: ys) ->
  py_join sep (x :: xs) = py_join sep (y :: ys).
Proof.
  cbn [py_join]. intros H.
  apply append_cancel_l in H. apply append_cancel_l in H. exact H.
Qed.

Lemma NoRetryReason_value_inj (r1 r2 : NoRetryReason) :
  NoRetryReason_value r1 = NoRetryReason_value r2 -> r1 = r2.
Proof.
  destruct r1, r2; simpl; intros H; try reflexivity; discriminate.
Qed.

(** The diagnostic line once a reason is given. *)
Lemma full_info_logging_str_with_reason
    (self : RequestErrorInfo) (r : NoRetryReason)
    (attempt max_attempts elapsed max_duration : PyValue) :
  full_info_logging_str self (Some r) attempt max_attempts elapsed max_duration
  = py_join "; "
      [ "Method" ++ ": " ++ method self;
        "Session-id" ++ ": " ++ py_str (request_session_id self);
        "Query-id" ++ ": " ++ py_str (request_query_id self);
        "HTTP-code" ++ ": " ++ py_str (http_code self);
        "Error-message" ++ ": " ++ py_str (py_of_optional_str (error_message self));
        "Original-exception" ++ ": " ++ py_str (error self);
        "No-retry-reason" ++ ": " ++ NoRetryReason_value r ].
Proof.
  unfold full_info_logging_str, od_items, od_of_pairs.
  cbn [fold_left od_setitem String.eqb Ascii.eqb Bool.eqb fst snd map].
  rewrite ?py_format_colon. reflexivity.
Qed.

(** X12: once a reason is given, the diagnostic line carries no retry
    bookkeeping: it is the same whatever the attempt, the maximum of
    attempts, the elapsed time, the maximum duration and the retry delay
    are. *)
Theorem full_info_logging_str_reason_hides_retry_state
    (e : PyValue) (msg : option string) (d d' code : PyValue) (m : string)
    (rq : Request) (r : NoRetryReason)
    (attempt max_attempts elapsed max_duration : PyValue)
    (attempt' max_attempts' elapsed' max_duration' : PyValue) :
  full_info_logging_str
    {| error := e; error_message := msg; retry_delay := d;
       http_code := code; method := m; request := rq |}
    (Some r) attempt max_attempts elapsed max_duration
  = full_info_logging_str
      {| error := e; error_message := msg; retry_delay := d';
         http_code := code; method := m; request := rq |}
      (Some r) attempt' max_attempts' elapsed' max_duration'.
Proof.
  rewrite !full_info_logging_str_with_reason. reflexivity.
Qed.

(** X13: the diagnostic line tells the reason: for one error info, the lines
    of two reasons are equal only when the reasons are the same, because
    the three labels differ. *)
Theorem full_info_logging_str_tells_reason
    (self : RequestErrorInfo) (r1 r2 : NoRetryReason)
    (attempt max_attempts elapsed max_duration : PyValue)
    (attempt' max_attempts' elapsed' max_duration' : PyValue) :
  full_info_logging_str self (Some r1) attempt max_attempts elapsed max_duration
  = full_info_logging_str self (Some r2) attempt' max_attempts' elapsed' max_duration' ->
  r1 = r2.
Proof.
  rewrite !full_info_logging_str_with_reason. intros H.
  do 6 apply py_join_cancel in H.
  cbn [py_join] in H.
  apply append_cancel_l in H. apply append_cancel_l in H.
  apply NoRetryReason_value_inj. exact H.
Qed.

(** X14: the user message reads nothing of the error info but its error
    message: two infos with the same error message give the same user
    message, whatever their method, request, HTTP code, retry delay and
    error are. *)
Theorem user_friendly_error_message_reads_only_error_message
    (a b : RequestErrorInfo) (no_retry_reason : option NoRetryReason)
    (attempt elapsed : PyValue) :
  error_message a = error_message b ->
  user_friendly_error_message a no_retry_reason attempt elapsed
  = user_friendly_error_message b no_retry_reason attempt elapsed.
Proof.
  intros Hmsg. unfold user_friendly_error_message. now rewrite Hmsg.
Qed.

(** X15: a request without a session handle, or without an operation
    handle, does not make the diagnostic line fail: the identifier it lacks
    is written [None]. *)
Theorem full_info_logging_str_without_handles
    (self : RequestErrorInfo) (no_retry_reason : option NoRetryReason)
    (attempt max_attempts elapsed max_duration : PyValue) :
  (sessionHandle (request self) = None ->
   exists rest,
     full_info_logging_str self no_retry_reason attempt max_attempts elapsed max_duration
     = "Method: " ++ method self ++ "; Session-id: None; Query-id: " ++ rest)
  /\
  (operationHandle (request self) = None ->
   exists rest,
     full_info_logging_str self no_retry_reason attempt max_attempts elapsed max_duration
     = "Method: " ++ method self ++ "; Session-id: "
       ++ py_str (request_session_id self) ++ "; Query-id: None; HTTP-code: " ++ rest).
Proof.
  split; intros Hnone.
  - unfold full_info_logging_str, od_items, od_of_pairs, request_session_id.
    rewrite Hnone.
    destruct no_retry_reason as [r |];
      cbn [fold_left od_setitem String.eqb Ascii.eqb Bool.eqb fst snd map];
      rewrite ?py_format_colon, ?py_format_slash;
      cbn [py_join py_str]; rewrite ?append_assoc; simpl;
      eexists; reflexivity.
  - unfold full_info_logging_str, od_items, od_of_pairs, request_query_id.
    rewrite Hnone.
    destruct no_retry_reason as [r |];
      cbn [fold_left od_setitem String.eqb Ascii.eqb Bool.eqb fst snd map];
      rewrite ?py_format_colon, ?py_format_slash;
      cbn [py_join py_str]; rewrite ?append_assoc; simpl;
      eexists; reflexivity.
Qed.

Lemma full_info_logging_str_tells_reason_witness :
  let self :=
    {| error := PyObject "timed out"; error_message := Some "timeout";
       retry_delay := PyObject "1.5"; http_code := PyInt 503;
       method := "ExecuteStatement";
       request := {| sessionHandle := None; operationHandle := None |} |} in
  full_info_logging_str self (Some OUT_OF_TIME) (PyInt 1) (PyInt 5) (PyInt 2) (PyInt 30)
  = full_info_logging_str self (Some OUT_OF_TIME) (PyInt 4) (PyInt 5) (PyInt 29) (PyInt 30)
  /\ OUT_OF_TIME = OUT_OF_TIME.
Proof.
  cbv zeta.
  assert (H : full_info_logging_str
    {| error := PyObject "timed out"; error_message := Some "timeout";
       retry_delay := PyObject "1.5"; http_code := PyInt 503;
       method := "ExecuteStatement";
       request := {| sessionHandle := None; operationHandle := None |} |}
    (Some OUT_OF_TIME) (PyInt 1) (PyInt 5) (PyInt 2) (PyInt 30)
  = full_info_logging_str
    {| error := PyObject "timed out"; error_message := Some "timeout";
       retry_delay := PyObject "1.5"; http_code := PyInt 503;
       method := "ExecuteStatement";
       request := {| sessionHandle := None; operationHandle := None |} |}
    (Some OUT_OF_TIME) (PyInt 4) (PyInt 5) (PyInt 29) (PyInt 30))
    by (vm_compute; reflexivity).
  split; [exact H |].
  exact (full_info_logging_str_tells_reason _ _ _ _ _ _ _ _ _ _ _ H).
Defined.

Lemma user_friendly_error_message_reads_only_error_message_witness :
  let a :=
    {| error := PyObject "ConnectionResetError(104)"; error_message := Some "timeout";
       retry_delay := PyObject "1.5"; http_code := PyInt 503;
       method := "ExecuteStatement";
       request :=
         {| sessionHandle := Some {| sessionId := {| guid := PyObject "s-1" |} |};
            operationHandle := None |} |} in
  let b :=
    {| error := PyNone; error_message := Some "timeout";
       retry_delay := PyNone; http_code := PyNone;
       method := "FetchResults";
       request :=
         {| sessionHandle := None;
            operationHandle := Some {| operationId := {| guid := PyObject "q-7" |} |} |} |} in
  error_message a = error_message b /\
  user_friendly_error_message a (Some OUT_OF_ATTEMPTS) (PyInt 3) (PyInt 40)
  = user_friendly_error_message b (Some OUT_OF_ATTEMPTS) (PyInt 3) (PyInt 40).
Proof.
  cbv zeta.
  split; [reflexivity |].
  exact (user_friendly_error_message_reads_only_error_message
    {| error := PyObject "ConnectionResetError(104)"; error_message := Some "timeout";
       retry_delay := PyObject "1.5"; http_code := PyInt 503;
       method := "ExecuteStatement";
       request :=
         {| sessionHandle := Some {| sessionId := {| guid := PyObject "s-1" |} |};
            operationHandle := None |} |}
    {| error := PyNone; error_message := Some "timeout";
       retry_delay := PyNone; http_code := PyNone;
       method := "FetchResults";
       request :=
         {| sessionHandle := None;
            operationHandle := Some {| operationId := {| guid := PyObject "q-7" |} |} |} |}
    (Some OUT_OF_ATTEMPTS) (PyInt 3) (PyInt 40) eq_refl).
Defined.

Lemma full_info_logging_str_without_handles_witness :
  let self :=
    {| error := PyObject "timed out"; error_message := Some "timeout";
       retry_delay := PyObject "1.5"; http_code := PyInt 503;
       method := "OpenSession";
       request := {| sessionHandle := None; operationHandle := None |} |} in
  sessionHandle (request self) = None /\
  operationHandle (request self) = None /\
  (exists rest,
     full_info_logging_str self None (PyInt 1) (PyInt 5) (PyInt 2) (PyInt 30)
     = "Method: " ++ method self ++ "; Session-id: None; Query-id: " ++ rest) /\
  (exists rest,
     full_info_logging_str self None (PyInt 1) (PyInt 5) (PyInt 2) (PyInt 30)
     = "Method: " ++ method self ++ "; Session-id: "
       ++ py_str (request_session_id self) ++ "; Query-id: None; HTTP-code: " ++ rest).
Proof.
  cbv zeta.
  split; [reflexivity |]. split; [reflexivity |]. split.
  - exact (proj1 (full_info_logging_str_without_handles
      {| error := PyObject "timed out"; error_message := Some "timeout";
         retry_delay := PyObject "1.5"; http_code := PyInt 503;
         method := "OpenSession";
         request := {| sessionHandle := None; operationHandle := None |} |}
      None (PyInt 1) (PyInt 5) (PyInt 2) (PyInt 30)) eq_refl).
  - exact (proj2 (full_info_logging_str_without_handles
      {| error := PyObject "timed out"; error_message := Some "timeout";
         retry_delay := PyObject "1.5"; http_code := PyInt 503;
         method := "OpenSession";
         request := {| sessionHandle := None; operationHandle := None |} |}
      None (PyInt 1) (PyInt 5) (PyInt 2) (PyInt 30)) eq_refl).
Defined.
